(** * m3d31: a shallow embedding of the 3D model viewer's core logic

  The development follows the TypeScript sources:
  - [hooks/useModelFile.ts]   : [ModelFile]   (size gate, format detection, object URLs)
  - [components/ModelViewer.tsx] : [Viewer]   (format dispatch, render modes, OBJ loading, auto-fit)
  - [utils/annotations.ts]    : [Annotations] and [Projection]

  JavaScript strings are Rocq [string]s, [number]s that are sizes or clock
  readings are [N], and [number]s that are coordinates are IEEE-754 binary64
  values ([spec_float] with precision 53 and exponent bound 1024). *)

From Stdlib Require Import ZArith NArith List String Ascii Bool Lia SpecFloat.
From stdpp Require Import base option list strings gmap pretty.

Set Warnings "-register-all".

Local Open Scope string_scope.

(** ** JavaScript string primitives used by the sources *)
Module Js.

(** [s.split(sep)] for a one-character separator: never the empty array. *)
Fixpoint split (sep : ascii) (s : string) : list string :=
  match s with
  | EmptyString => [EmptyString]
  | String c s' =>
      if Ascii.eqb c sep then EmptyString :: split sep s'
      else match split sep s' with
           | [] => [String c EmptyString]
           | h :: t => String c h :: t
           end
  end.

(** [arr.pop()], read-only use: the last element, [undefined] on []. *)
Definition pop (l : list string) : option string := last l.

Definition lowerAscii (c : ascii) : ascii :=
  let n := N_of_ascii c in
  if ((65 <=? n) && (n <=? 90))%N then ascii_of_N (n + 32) else c.

(** [s.toLowerCase()] on the ASCII range; other code units are kept. *)
Fixpoint toLowerCase (s : string) : string :=
  match s with
  | EmptyString => EmptyString
  | String c s' => String (lowerAscii c) (toLowerCase s')
  end.

(** [s.startsWith(p)] *)
Fixpoint startsWith (p s : string) : bool :=
  match p, s with
  | EmptyString, _ => true
  | String a p', String b s' => Ascii.eqb a b && startsWith p' s'
  | String _ _, EmptyString => false
  end.

(** [s.includes(c)] for a one-character needle. *)
Fixpoint includes (c : ascii) (s : string) : bool :=
  match s with
  | EmptyString => false
  | String d s' => Ascii.eqb d c || includes c s'
  end.

(** Truthiness of a string: only [''] is falsy. *)
Definition truthy (s : string) : bool := negb (String.eqb s "").

(** Truthiness of [string | undefined]. *)
Definition truthy_opt (o : option string) : bool :=
  match o with
  | Some s => truthy s
  | None => false
  end.

(** Template-literal interpolation of [string | undefined]. *)
Definition show (o : option string) : string := default "undefined" o.

End Js.

Arguments Js.startsWith : simpl never.

(** ** hooks/useModelFile.ts *)
Module ModelFile.

(** The part of a DOM [File] the hook reads. *)
Record File := mkFile { name : string; size : N; type : string }.

(** The hook's five [useState] cells. *)
Record State := mkState {
  modelUrl : option string;
  isLoading : bool;
  error : option string;
  fileName : option string;
  fileType : option string
}.

(** The browser resources the hook touches: the blob URL store
    ([URL.createObjectURL] / [URL.revokeObjectURL]) and [sessionStorage].
    [origin] is the serialized origin of the page (scheme, host and port,
    such as [https://www.example.org]); [issued] counts the object URLs
    handed out so far. *)
Record Browser := mkBrowser {
  origin : string;
  issued : N;
  blobs : gmap string File;
  sessionStorage : gmap string string
}.

(** An object URL is [blob:], the origin, a slash and a UUID the browser
    draws for it. The UUID of the n-th URL is represented by the numeral of
    [n]: like a UUID it has no slash, dot, question mark or hash in it, and
    no two URLs of one page share it. *)
Definition blobUrl (origin : string) (n : N) : string :=
  "blob:" +:+ origin +:+ "/" +:+ pretty n.

Definition createObjectURL (f : File) (br : Browser) : string * Browser :=
  let url := blobUrl (origin br) (issued br) in
  (url, mkBrowser (origin br) (issued br + 1) (<[url := f]> (blobs br))
                  (sessionStorage br)).

Definition revokeObjectURL (url : string) (br : Browser) : Browser :=
  mkBrowser (origin br) (issued br) (delete url (blobs br)) (sessionStorage br).

Definition setItem (k v : string) (br : Browser) : Browser :=
  mkBrowser (origin br) (issued br) (blobs br) (<[k := v]> (sessionStorage br)).

Definition removeItem (k : string) (br : Browser) : Browser :=
  mkBrowser (origin br) (issued br) (blobs br) (delete k (sessionStorage br)).

Definition storageKey (url : string) : string := "fileType_" +:+ url.

Definition setModelUrl v st := mkState v (isLoading st) (error st) (fileName st) (fileType st).
Definition setIsLoading v st := mkState (modelUrl st) v (error st) (fileName st) (fileType st).
Definition setError v st := mkState (modelUrl st) (isLoading st) v (fileName st) (fileType st).
Definition setFileName v st := mkState (modelUrl st) (isLoading st) (error st) v (fileType st).
Definition setFileType v st := mkState (modelUrl st) (isLoading st) (error st) (fileName st) v.

Definition MAX_SIZE : N := 100 * 1024 * 1024.

Definition supportedFormats : list string := ["glb"; "gltf"; "obj"; "fbx"; "stl"].

Definition sizeLimitMessage : string := "File size exceeds 100MB limit".

(** Line 39: [file.name.split('.').pop()?.toLowerCase()]. *)
Definition nameExtension (f : File) : option string :=
  Js.toLowerCase <$> Js.pop (Js.split "." (name f)).

(** Line 42: the guard of the MIME fallback. *)
Definition usesMimeFallback (f : File) : bool :=
  negb (Js.truthy_opt (nameExtension f)) && Js.startsWith "model/" (type f).

(** Lines 43-46: the subtype, with the two special cases. *)
Definition mimeExtension (f : File) : option string :=
  let extension := Js.split "/" (type f) !! 1%nat in
  let extension := if decide (extension = Some "gltf+json") then Some "gltf" else extension in
  let extension := if decide (extension = Some "gltf-binary") then Some "glb" else extension in
  extension.

(** Lines 39-47: the value of [extension] when the format check reads it. *)
Definition detectExtension (f : File) : option string :=
  if usesMimeFallback f then mimeExtension f else nameExtension f.

(** Line 52: [!extension || !supportedFormats.includes(extension)]. *)
Definition unsupported (extension : option string) : bool :=
  negb (Js.truthy_opt extension)
  || negb (bool_decide (default "" extension ∈ supportedFormats)).

(** A call inside the [try] block may throw; the parameter says which. *)
Inductive Fault := NoFault | CreateObjectURLThrows | SetItemThrows.

Definition revokeIfBlob (url : option string) (br : Browser) : Browser :=
  match url with
  | Some u => if Js.startsWith "blob:" u then revokeObjectURL u br else br
  | None => br
  end.

(** [loadModel(file)]: the state cells and the browser after the handler. *)
Definition loadModel (fault : Fault) (file : File) (st : State) (br : Browser)
  : State * Browser :=
  if (MAX_SIZE <? size file)%N then
    (setError (Some sizeLimitMessage) st, br)
  else
    let extension := detectExtension file in
    if unsupported extension then
      (setError (Some ("Unsupported file format: ." +:+ Js.show extension)) st, br)
    else
      let br := revokeIfBlob (modelUrl st) br in
      let st := setError None (setIsLoading true st) in
      match fault with
      | CreateObjectURLThrows =>
          (setIsLoading false (setError (Some "Error loading model file") st), br)
      | SetItemThrows =>
          let '(objectUrl, br) := createObjectURL file br in
          (setIsLoading false (setError (Some "Error loading model file") st), br)
      | NoFault =>
          let '(objectUrl, br) := createObjectURL file br in
          let br := setItem (storageKey objectUrl) (Js.show extension) br in
          let st := setFileType extension (setFileName (Some (name file)) (setModelUrl (Some objectUrl) st)) in
          (setIsLoading false st, br)
      end.

(** [clearModel()] *)
Definition clearModel (st : State) (br : Browser) : State * Browser :=
  let br :=
    match modelUrl st with
    | Some u =>
        if Js.truthy u then
          let br := removeItem (storageKey u) br in
          if Js.startsWith "blob:" u then revokeObjectURL u br else br
        else br
    | None => br
    end in
  (setError None (setFileType None (setFileName None (setModelUrl None st))), br).

End ModelFile.

(** ** IEEE-754 binary64 numbers and the Three.js vector type *)
Module F64.

Definition prec : Z := 53.
Definition emax : Z := 1024.

Abbreviation float := spec_float.

Definition add : float -> float -> float := SFadd prec emax.
Definition sub : float -> float -> float := SFsub prec emax.
Definition mul : float -> float -> float := SFmul prec emax.
Definition div : float -> float -> float := SFdiv prec emax.
Definition abs : float -> float := SFabs.
Definition opp : float -> float := SFopp.
Definition sqrt : float -> float := SFsqrt prec emax.
Definition ltb : float -> float -> bool := SFltb.

Definition of_Z (z : Z) : float := binary_normalize prec emax z 0 false.

Definition NaN : float := S754_nan.
Definition zero : float := S754_zero false.

(** The literal [1.5]. *)
Definition one_and_half : float := Eval vm_compute in div (of_Z 3) (of_Z 2).

(** [Math.PI], 0x1.921fb54442d18p+1. *)
Definition Math_PI : float := S754_finite false 7074237752028440 (-51).

Definition isNaN (v : float) : bool :=
  match v with S754_nan => true | _ => false end.

(** [Number.isFinite] *)
Definition isFinite (v : float) : bool :=
  match v with
  | S754_zero _ | S754_finite _ _ _ => true
  | S754_infinity _ | S754_nan => false
  end.

Definition isZero (v : float) : bool :=
  match v with S754_zero _ => true | _ => false end.


(** One step of [Math.max]'s scan: a larger number replaces [highest],
    and so does [+0] over [-0]. *)
Definition max_step (highest number : float) : float :=
  if ltb highest number then number
  else match highest, number with
       | S754_zero true, S754_zero false => number
       | _, _ => highest
       end.


(** [Math.max(...l)]: [NaN] if an argument is, else the largest, from [-Infinity]. *)
Definition Math_max (l : list float) : float :=
  if existsb isNaN l then NaN else fold_left max_step l (S754_infinity true).

End F64.

Module Three.
Import F64.

Record Vector3 := vec3 { x : float; y : float; z : float }.

(** [a.sub(b)], [a.add(b)], [a.multiplyScalar(s)] *)
Definition vsub (a b : Vector3) : Vector3 :=
  vec3 (sub (x a) (x b)) (sub (y a) (y b)) (sub (z a) (z b)).
Definition vadd (a b : Vector3) : Vector3 :=
  vec3 (add (x a) (x b)) (add (y a) (y b)) (add (z a) (z b)).
Definition multiplyScalar (a : Vector3) (s : float) : Vector3 :=
  vec3 (mul (x a) s) (mul (y a) s) (mul (z a) s).

(** A [Matrix4]: its sixteen [elements], column-major. *)
Definition Matrix4 := list float.

Definition el (m : Matrix4) (i : nat) : float := nth i m zero.

(** The fields of a camera the sources and Three.js's projection read. *)
Record Camera := mkCamera {
  isPerspectiveCamera : bool;
  fov : float;
  position : Vector3;
  projectionMatrix : Matrix4;
  projectionMatrixInverse : Matrix4;
  matrixWorld : Matrix4;
  matrixWorldInverse : Matrix4
}.

Definition setPositionZ (v : float) (c : Camera) : Camera :=
  mkCamera (isPerspectiveCamera c) (fov c)
           (vec3 (x (position c)) (y (position c)) v)
           (projectionMatrix c) (projectionMatrixInverse c)
           (matrixWorld c) (matrixWorldInverse c).

(** Three.js's own [Vector3.applyMatrix4], [project], [unproject], [length]
    and [normalize] (three/src/math/Vector3.js), for running the projection
    code on a concrete camera. *)
Definition applyMatrix4 (v : Vector3) (m : Matrix4) : Vector3 :=
  let dot a b c d :=
    add (add (add (mul (el m a) (x v)) (mul (el m b) (y v))) (mul (el m c) (z v))) (el m d) in
  let w := div (of_Z 1) (dot 3 7 11 15)%nat in
  vec3 (mul (dot 0 4 8 12)%nat w) (mul (dot 1 5 9 13)%nat w) (mul (dot 2 6 10 14)%nat w).

Definition unproject (v : Vector3) (camera : Camera) : Vector3 :=
  applyMatrix4 (applyMatrix4 v (projectionMatrixInverse camera)) (matrixWorld camera).


Definition length (v : Vector3) : float :=
  sqrt (add (add (mul (x v) (x v)) (mul (y v) (y v))) (mul (z v) (z v))).

Definition normalize (v : Vector3) : Vector3 :=
  let l := length v in
  let l := if isZero l || isNaN l then of_Z 1 else l in
  multiplyScalar v (div (of_Z 1) l).

(** The translation by (0, 0, t); [translationZ 0] is the identity. *)
Definition translationZ (t : Z) : Matrix4 :=
  let o := of_Z 1 in
  [o; zero; zero; zero;  zero; o; zero; zero;  zero; zero; o; zero;
   zero; zero; of_Z t; o].

Definition identity : Matrix4 := translationZ 0.

End Three.

(** ** components/ModelViewer.tsx *)
Module Viewer.
Import F64.

(** *** Materials and the scene graph *)

Inductive MaterialClass := MeshBasicMaterial | MeshStandardMaterial | MeshPhongMaterial.

Record Material := mkMaterial {
  cls : MaterialClass;
  mname : string;
  color : N;
  wireframe : bool;
  flatShading : bool;
  map : option string
}.

(** [mesh.material]: missing, one material, or an array of them. *)
Inductive MaterialSlot :=
| Absent
| One (m : Material)
| Many (ms : list Material).

(** An [Object3D] with its [isMesh] flag, material slot and children. *)
Inductive Object3D :=
| Object (isMesh : bool) (material : MaterialSlot) (children : list Object3D).

(** [new THREE.MeshBasicMaterial({ wireframe: true, color: 0x00ff00 })] *)
Definition wireframeMaterial : Material :=
  mkMaterial MeshBasicMaterial "" 0x00ff00 true false None.

(** [new THREE.MeshStandardMaterial({ color: 0xcccccc, flatShading: true })] *)
Definition solidMaterial : Material :=
  mkMaterial MeshStandardMaterial "" 0xcccccc false true None.

(** [new THREE.MeshStandardMaterial({ color: 0xcccccc })] *)
Definition defaultMaterial : Material :=
  mkMaterial MeshStandardMaterial "" 0xcccccc false false None.

(** [o.traverse(cb)] where [cb] only assigns [mesh.material] on meshes. *)
Fixpoint traverse (cb : MaterialSlot -> MaterialSlot) (o : Object3D) : Object3D :=
  match o with
  | Object isMesh material children =>
      Object isMesh (if isMesh then cb material else material)
             (List.map (traverse cb) children)
  end.

(** The callback of [GLTFModel]'s render-mode effect (lines 133-148). *)
Definition gltfMeshMaterial (renderMode : string) (material : MaterialSlot) : MaterialSlot :=
  if String.eqb renderMode "wireframe" then One wireframeMaterial
  else if String.eqb renderMode "solid" then One solidMaterial
  else material.

(** The callback of [OBJModel]'s render-mode effect (lines 294-317). *)
Definition objMeshMaterial (renderMode : string) (material : MaterialSlot) : MaterialSlot :=
  if String.eqb renderMode "wireframe" then One wireframeMaterial
  else if String.eqb renderMode "solid" then One solidMaterial
  else if String.eqb renderMode "textured" then
    match material with
    | Absent => One defaultMaterial
    | Many [] => One defaultMaterial
    | Many (_ :: _) => material
    | One m => if String.eqb (mname m) "" then One defaultMaterial else material
    end
  else material.

Definition applyRenderModeGLTF (renderMode : string) (scene : Object3D) : Object3D :=
  traverse (gltfMeshMaterial renderMode) scene.

Definition applyRenderModeOBJ (renderMode : string) (obj : Object3D) : Object3D :=
  traverse (objMeshMaterial renderMode) obj.

(** The materials of the meshes, in traversal order. *)
Fixpoint meshMaterials (o : Object3D) : list MaterialSlot :=
  match o with
  | Object isMesh material children =>
      (if isMesh then [material] else []) ++ List.flat_map meshMaterials children
  end.

(** *** Camera auto-fit (lines 154-168 and 321-333)

    [size] is the result of [Box3.setFromObject(scene).getSize()];
    [Math_sin] is the platform's [Math.sin]. *)
Definition cameraDistance (Math_sin : float -> float) (size : Three.Vector3)
    (camera_fov : float) : float :=
  let maxDim := Math_max [Three.x size; Three.y size; Three.z size] in
  let fov := mul camera_fov (div Math_PI (of_Z 180)) in
  let cameraZ := abs (div maxDim (Math_sin (div fov (of_Z 2)))) in
  mul cameraZ one_and_half.

Definition autoFit (Math_sin : float -> float) (size : Three.Vector3)
    (camera : Three.Camera) : Three.Camera :=
  if Three.isPerspectiveCamera camera then
    Three.setPositionZ (cameraDistance Math_sin size (Three.fov camera)) camera
  else camera.

(** *** Format dispatch ([Model], lines 59-121) *)

Inductive Element :=
| GLTFModel (url renderMode : string)
| OBJModel (url renderMode : string)
| PlaceholderModel (message : string)
| ErrorMessage (message : string).

(** [s.split('.').pop()?.toLowerCase() || ''] *)
Definition suffixOf (s : string) : string :=
  default "" (Js.toLowerCase <$> Js.pop (Js.split "." s)).

(** Lines 63-91: the value of [fileExtension] at the dispatch.
    [URL_search url] is [new URL(url).search], computed by the platform's
    URL parser: [None] when the constructor throws its [TypeError]. Nothing
    in [Model] catches it, so the component throws as well ([None]). *)
Definition fileExtension (URL_search : string -> option string)
    (sessionStorage : gmap string string) (url : string) : option string :=
  let stored := sessionStorage !! ModelFile.storageKey url in
  if Js.truthy url && Js.truthy_opt stored then Some (default "" stored)
  else if Js.startsWith "blob:" url then
    let lastPart := default "" (last (Js.split "/" url)) in
    if Js.includes "." lastPart then Some (suffixOf lastPart)
    else
      match URL_search url with
      | None => None
      | Some searchParams =>
          Some (if Js.truthy searchParams && Js.includes "." searchParams
                then suffixOf searchParams else "")
      end
  else
    let urlPath := hd "" (Js.split "?" url) in
    Some (suffixOf urlPath).

(** The extensions the dispatch has a branch for. *)
Definition recognized : list string := ["gltf"; "glb"; "obj"; "stl"; "fbx"].

Definition dispatch (fileExtension url renderMode : string) : Element :=
  if String.eqb fileExtension "gltf" || String.eqb fileExtension "glb" then
    GLTFModel url renderMode
  else if String.eqb fileExtension "obj" then OBJModel url renderMode
  else if String.eqb fileExtension "stl" then
    PlaceholderModel "STL format support coming soon"
  else if String.eqb fileExtension "fbx" then
    PlaceholderModel "FBX format support coming soon"
  else
    ErrorMessage ("Unsupported file format: " +:+
                  (if Js.truthy fileExtension then fileExtension else "unknown")).

(** What [Model] returns, [None] when it throws. *)
Definition Model (URL_search : string -> option string)
    (sessionStorage : gmap string string) (url renderMode : string)
  : option Element :=
  match fileExtension URL_search sessionStorage url with
  | None => None
  | Some fileExtension => Some (dispatch fileExtension url renderMode)
  end.

(** *** [OBJModel]: loading state and what it renders (lines 174-362) *)

Record OBJState := mkOBJ {
  obj : option Object3D;
  error : option string;
  loading : bool
}.

Definition initialOBJ : OBJState := mkOBJ None None true.

(** What the companion [.mtl] probe finds: a file whose materials load, a
    file whose load never calls back, no file, or a rejected fetch. *)
Inductive MtlProbe := MtlLoaded | MtlStalled | MtlNotFound | MtlThrows.

(** How one run of the load effect ends: whether the dynamic import of
    the loader succeeds, what the probe finds, and what [loader.load]
    reports ([Some object] through [onLoad], [None] through [onError]). *)
Record LoadRun := mkRun {
  importOk : bool;
  probe : MtlProbe;
  parsed : option Object3D
}.

Definition loaderCallback (parsed : option Object3D) (st : OBJState) : OBJState :=
  match parsed with
  | Some object => mkOBJ (Some object) (error st) false
  | None => mkOBJ (obj st) (Some "Failed to load OBJ model") false
  end.

(** The load effect, run when [url] changes; the component keeps its
    state cells from the previous [url]. *)
Definition loadOBJ (run : LoadRun) (st : OBJState) : OBJState :=
  let st := mkOBJ (obj st) None true in
  if negb (importOk run) then mkOBJ (obj st) (Some "Failed to load OBJ loader") false
  else match probe run with
       | MtlLoaded => loaderCallback (parsed run) st
       | MtlStalled => st
       | MtlNotFound | MtlThrows => loaderCallback (parsed run) st
       end.

Inductive Rendered :=
| LoadingPlaceholder
| ShowError (message : string)
| Primitive (object : Object3D)
| Nothing.

Definition renderOBJ (st : OBJState) : Rendered :=
  if loading st then LoadingPlaceholder
  else match error st with
       | Some e => if Js.truthy e then ShowError e
                   else match obj st with Some o => Primitive o | None => Nothing end
       | None => match obj st with Some o => Primitive o | None => Nothing end
       end.

End Viewer.

(** ** utils/annotations.ts: the annotation manager *)
Module Annotations.

Record Annotation := mkAnnotation {
  id : string;
  position : Three.Vector3;
  title : string;
  description : string;
  color : option string
}.

(** [Omit<Annotation, 'id'>] *)
Record AnnotationData := mkData {
  d_position : Three.Vector3;
  d_title : string;
  d_description : string;
  d_color : option string
}.

(** [Partial<Omit<Annotation, 'id'>>]: the fields that are present. *)
Record AnnotationPatch := mkPatch {
  p_position : option Three.Vector3;
  p_title : option string;
  p_description : option string;
  p_color : option (option string)
}.

(** [`annotation-${Date.now()}-${Math.floor(Math.random() * 1000)}`]:
    [now] is the clock reading in milliseconds, [draw] the floored draw. *)
Definition makeId (now draw : N) : string :=
  "annotation-" +:+ pretty now +:+ "-" +:+ pretty draw.

(** [addAnnotation]: the new record and the collection after the push. *)
Definition addAnnotation (now draw : N) (annotation : AnnotationData)
    (annotations : list Annotation) : Annotation * list Annotation :=
  let id := makeId now draw in
  let newAnnotation :=
    mkAnnotation id (d_position annotation) (d_title annotation)
                 (d_description annotation) (d_color annotation) in
  (newAnnotation, (annotations ++ [newAnnotation])%list).

(** [removeAnnotation]: [annotations.filter(a => a.id !== id)] *)
Definition removeAnnotation (i : string) (annotations : list Annotation)
    : list Annotation :=
  filter (fun a => id a <> i) annotations.

(** [{ ...annotations[index], ...data }] *)
Definition merge (a : Annotation) (data : AnnotationPatch) : Annotation :=
  mkAnnotation (id a)
               (default (position a) (p_position data))
               (default (title a) (p_title data))
               (default (description a) (p_description data))
               (default (color a) (p_color data)).

(** [annotations.findIndex(a => a.id === id)], [None] for [-1]. *)
Fixpoint findIndex (i : string) (annotations : list Annotation) : option nat :=
  match annotations with
  | [] => None
  | a :: rest => if String.eqb (id a) i then Some 0%nat
                 else S <$> findIndex i rest
  end.

Definition updateAnnotation (i : string) (data : AnnotationPatch)
    (annotations : list Annotation) : option Annotation * list Annotation :=
  match findIndex i annotations with
  | None => (None, annotations)
  | Some index =>
      match annotations !! index with
      | Some old =>
          let updatedAnnotation := merge old data in
          (Some updatedAnnotation, <[index := updatedAnnotation]> annotations)
      | None => (None, annotations)
      end
  end.

(** [annotations.find(a => a.id === id)] *)
Definition getAnnotation (i : string) (annotations : list Annotation)
    : option Annotation :=
  List.find (fun a => String.eqb (id a) i) annotations.

Definition clearAnnotations (annotations : list Annotation) : list Annotation := [].

End Annotations.

(** ** utils/annotations.ts: screen to world *)
Module Projection.
Import F64 Three.

(** [screenToWorld] (lines 82-112). [unproject] and [normalize] are the
    Three.js methods the function calls; [clientWidth] and [clientHeight]
    are the canvas dimensions it reads from the renderer. *)
Definition screenToWorld
    (unproject : Vector3 -> Camera -> Vector3) (normalize : Vector3 -> Vector3)
    (screenX screenY : float) (camera : Camera)
    (clientWidth clientHeight : float) (depth : float) : Vector3 :=
  let vector :=
    vec3 (sub (mul (div screenX clientWidth) (of_Z 2)) (of_Z 1))
         (add (mul (opp (div screenY clientHeight)) (of_Z 2)) (of_Z 1))
         depth in
  let vector := unproject vector camera in
  let dir := normalize (vsub vector (position camera)) in
  let distance := div (sub depth (z (position camera))) (z dir) in
  let pos := vadd (position camera) (multiplyScalar dir distance) in
  pos.


(** The ray direction whose [z] the function divides by (line 103). *)
Definition rayDirection
    (unproject : Vector3 -> Camera -> Vector3) (normalize : Vector3 -> Vector3)
    (screenX screenY : float) (camera : Camera)
    (clientWidth clientHeight : float) (depth : float) : Vector3 :=
  let vector :=
    vec3 (sub (mul (div screenX clientWidth) (of_Z 2)) (of_Z 1))
         (add (mul (opp (div screenY clientHeight)) (of_Z 2)) (of_Z 1))
         depth in
  normalize (vsub (unproject vector camera) (position camera)).



End Projection.

(** ** Sample inputs for running the definitions *)
Module Samples.
Import F64 Three.


(** The suffix of [s] that starts at the first [c] (empty if there is none). *)
Fixpoint fromFirst (c : ascii) (s : string) : string :=
  match s with
  | EmptyString => EmptyString
  | String d s' => if Ascii.eqb d c then s else fromFirst c s'
  end.

(** A stand-in for the platform's URL parser, for running [Model] on
    sample URLs. A [blob:] URL whose host opens a square bracket that is
    never closed is refused, as the parser refuses it. For the other strings
    it returns what the parser returns for a URL it accepts: the query with
    its leading [?], up to the fragment, and [''] when the query is empty. *)
Definition URL_search (url : string) : option string :=
  if Js.startsWith "blob://[" url && negb (Js.includes "]" url) then None
  else
    let q := fromFirst "?" (hd "" (Js.split "#" url)) in
    Some (if String.eqb q "?" then "" else q).

(** A plain [THREE.Camera] moved to (0, 0, 5): identity projection, world
    matrix the translation. *)
Definition cameraAt5 : Camera :=
  mkCamera false zero (vec3 zero zero (of_Z 5))
           identity identity (translationZ 5) (translationZ (-5)).







End Samples.

(** ** components/ModelViewer.tsx: what a render-mode pass leaves alone,
    and the companion-material URL *)
Module Scene.
Import Viewer.

(** The scene graph with every mesh's material slot emptied: the node
    structure, the [isMesh] flags and the materials of the other objects. *)
Fixpoint stripMeshMaterials (o : Object3D) : Object3D :=
  match o with
  | Object isMesh material children =>
      Object isMesh (if isMesh then Absent else material)
             (List.map stripMeshMaterials children)
  end.

(** A slot the renderer can draw with: a material, or a non-empty array. *)
Definition hasMaterial (slot : MaterialSlot) : bool :=
  match slot with
  | Absent | Many [] => false
  | One _ | Many (_ :: _) => true
  end.

(** A slot that fails all three tests of the textured branch of
    [OBJModel] (lines 309-311). *)
Definition namedOrArray (slot : MaterialSlot) : bool :=
  match slot with
  | One m => Js.truthy (mname m)
  | Many (_ :: _) => true
  | Absent | Many [] => false
  end.

(** [s.includes(pat)] for a string needle. *)
Fixpoint includesStr (pat s : string) : bool :=
  Js.startsWith pat s
  || match s with
     | EmptyString => false
     | String _ s' => includesStr pat s'
     end.

(** The rest of [s] after its first [n] characters. *)
Fixpoint dropChars (n : nat) (s : string) : string :=
  match n, s with
  | O, _ => s
  | S n', String _ s' => dropChars n' s'
  | S _, EmptyString => EmptyString
  end.

(** [s.replace(pat, rep)] with a string pattern: the first occurrence only. *)
Fixpoint replaceFirst (pat rep s : string) : string :=
  if Js.startsWith pat s then rep +:+ dropChars (String.length pat) s
  else match s with
       | EmptyString => EmptyString
       | String c s' => String c (replaceFirst pat rep s')
       end.

(** Line 196: [url.replace('.obj', '.mtl')]. *)
Definition mtlUrl (url : string) : string := replaceFirst ".obj" ".mtl" url.

End Scene.

(** ** components/AnnotationsPanel.tsx *)
Module Panel.
Import Annotations.

(** The first [n] characters of [s]: [s.substring(0, n)]. *)
Fixpoint takeChars (n : nat) (s : string) : string :=
  match n, s with
  | O, _ => EmptyString
  | S n', String c s' => String c (takeChars n' s')
  | S _, EmptyString => EmptyString
  end.

(** The secondary text of a list row (lines 124-128). *)
Definition preview (description : string) : string :=
  if (50 <? String.length description)%nat
  then takeChars 50 description +:+ "..."
  else description.

(** [annotation.color || '#3f51b5'] *)
Definition colorOrDefault (color : option string) : string :=
  match color with
  | Some c => if Js.truthy c then c else "#3f51b5"
  | None => "#3f51b5"
  end.

(** The panel's five [useState] cells. *)
Record Dialog := mkDialog {
  editDialogOpen : bool;
  currentAnnotation : option Annotation;
  editTitle : string;
  editDescription : string;
  editColor : string
}.

Definition initialDialog : Dialog := mkDialog false None "" "" "#3f51b5".

Definition handleEditClick (annotation : Annotation) (d : Dialog) : Dialog :=
  mkDialog true (Some annotation) (title annotation) (description annotation)
           (colorOrDefault (color annotation)).

(** [handleSaveEdit]: the call of [onEditAnnotation] it makes, if any, and
    the dialog afterwards. *)
Definition handleSaveEdit (d : Dialog) : option (string * AnnotationPatch) * Dialog :=
  (match currentAnnotation d with
   | Some a =>
       Some (id a, mkPatch None (Some (editTitle d)) (Some (editDescription d))
                           (Some (Some (editColor d))))
   | None => None
   end,
   mkDialog false (currentAnnotation d) (editTitle d) (editDescription d) (editColor d)).

End Panel.

(** ** App.tsx: the handlers of [ModelViewerApp] *)
Module App.
Import Annotations.

Inductive Severity := success | error | warning | info.

Record Alert := mkAlert {
  alertOpen : bool;
  alertMessage : string;
  alertSeverity : Severity
}.

(** The state the handlers read and write: the model hook's cells and the
    browser behind them, the annotation manager's collection, the
    [annotations] state cell, the selection and the alert. *)
Record AppState := mkApp {
  hook : ModelFile.State;
  browser : ModelFile.Browser;
  manager : list Annotation;
  annotations : list Annotation;
  selectedAnnotationId : option string;
  alert : Alert
}.

Definition initialApp (br : ModelFile.Browser) : AppState :=
  mkApp (ModelFile.mkState None false None None None) br [] [] None
        (mkAlert false "" info).

Definition showAlert (message : string) (severity : Severity) (st : AppState) : AppState :=
  mkApp (hook st) (browser st) (manager st) (annotations st)
        (selectedAnnotationId st) (mkAlert true message severity).

Definition handleAlertClose (st : AppState) : AppState :=
  mkApp (hook st) (browser st) (manager st) (annotations st)
        (selectedAnnotationId st)
        (mkAlert false (alertMessage (alert st)) (alertSeverity (alert st))).

(** The hook's [loadModel], run on the app's state. *)
Definition callLoadModel (fault : ModelFile.Fault) (file : ModelFile.File)
    (st : AppState) : AppState :=
  let '(h, br) := ModelFile.loadModel fault file (hook st) (browser st) in
  mkApp h br (manager st) (annotations st) (selectedAnnotationId st) (alert st).

(** [handleFileUpload] (lines 572-582 of the ModelViewer.tsx listing). *)
Definition handleFileUpload (fault : ModelFile.Fault) (file : ModelFile.File)
    (st : AppState) : AppState :=
  let fileExtension := ModelFile.nameExtension file in
  if bool_decide (fileExtension = Some "glb")
     || bool_decide (fileExtension = Some "gltf")
     || bool_decide (fileExtension = Some "obj")
  then
    showAlert ("Loaded model: " +:+ ModelFile.name file) success
              (callLoadModel fault file st)
  else
    callLoadModel fault file
      (showAlert ("File format ." +:+ Js.show fileExtension +:+
                  " is not fully supported yet. Only GLB/GLTF/OBJ files are currently supported.")
                 warning st).

Record SampleModel := mkSample {
  s_name : string;
  s_url : string;
  s_format : string
}.

(** How the fetch of a sample ends: a rejected promise with its message,
    a response that is not ok with its status text, or a blob of a size. *)
Inductive FetchOutcome :=
| FetchRejected (message : string)
| FetchNotOk (statusText : string)
| Fetched (blobSize : N).

(** The [switch] over [model.format.toLowerCase()]. *)
Definition mimeTypeOf (format : string) : string :=
  let f := Js.toLowerCase format in
  if String.eqb f "gltf" then "model/gltf+json"
  else if String.eqb f "glb" then "model/gltf-binary"
  else if String.eqb f "obj" then "model/obj"
  else if String.eqb f "stl" then "model/stl"
  else if String.eqb f "fbx" then "model/fbx"
  else "application/octet-stream".

(** The [File] built from the fetched blob. *)
Definition sampleFile (model : SampleModel) (blobSize : N) : ModelFile.File :=
  let fileName :=
    if Js.includes "." (s_name model) then s_name model
    else s_name model +:+ "." +:+ s_format model in
  ModelFile.mkFile fileName blobSize (mimeTypeOf (s_format model)).

(** [handleSampleModelSelect], once the fetch has settled. [st] is the
    state the callback runs on; the model URL [loadModel] reads is taken to
    be the current one (no other load between the click and the response). *)
Definition handleSampleModelSelect (fault : ModelFile.Fault) (model : SampleModel)
    (outcome : FetchOutcome) (st : AppState) : AppState :=
  match outcome with
  | FetchRejected message =>
      showAlert ("Failed to load sample model: " +:+ message) error st
  | FetchNotOk statusText =>
      showAlert ("Failed to load sample model: " +:+
                 ("Failed to fetch model: " +:+ statusText)) error st
  | Fetched blobSize =>
      showAlert ("Loaded sample model: " +:+ s_name model) success
                (callLoadModel fault (sampleFile model blobSize) st)
  end.

(** [handleAddAnnotation]: [r1], [r2], [r3] are the three draws of
    [Math.random()] for the position, [now] and [draw] the clock reading and
    the floored draw the manager uses for the id. *)
Definition handleAddAnnotation (now draw : N) (r1 r2 r3 : F64.float)
    (st : AppState) : AppState :=
  if negb (Js.truthy_opt (ModelFile.modelUrl (hook st))) then
    showAlert "Please load a model first" warning st
  else
    let coordinate r := F64.sub (F64.mul r (F64.of_Z 2)) (F64.of_Z 1) in
    let randomPosition := Three.vec3 (coordinate r1) (coordinate r2) (coordinate r3) in
    let '(newAnnotation, collection) :=
      addAnnotation now draw
        (mkData randomPosition "New Annotation" "Click to edit this annotation"
                (Some "#3f51b5"))
        (manager st) in
    showAlert "Annotation added" success
      (mkApp (hook st) (browser st) collection collection
             (Some (id newAnnotation)) (alert st)).

Definition handleEditAnnotation (i : string) (data : AnnotationPatch)
    (st : AppState) : AppState :=
  let collection := snd (updateAnnotation i data (manager st)) in
  showAlert "Annotation updated" success
    (mkApp (hook st) (browser st) collection collection
           (selectedAnnotationId st) (alert st)).

Definition handleDeleteAnnotation (i : string) (st : AppState) : AppState :=
  let collection := removeAnnotation i (manager st) in
  showAlert "Annotation deleted" success
    (mkApp (hook st) (browser st) collection collection
           (if bool_decide (selectedAnnotationId st = Some i) then None
            else selectedAnnotationId st)
           (alert st)).

Definition handleSelectAnnotation (i : string) (st : AppState) : AppState :=
  mkApp (hook st) (browser st) (manager st) (annotations st) (Some i) (alert st).

(** What the user can make the app do. *)
Inductive Event :=
| FileUpload (fault : ModelFile.Fault) (file : ModelFile.File)
| SampleSelect (fault : ModelFile.Fault) (model : SampleModel) (outcome : FetchOutcome)
| AddAnnotation (now draw : N) (r1 r2 r3 : F64.float)
| EditAnnotation (i : string) (data : AnnotationPatch)
| DeleteAnnotation (i : string)
| SelectAnnotation (i : string)
| AlertClose.

Definition handle (e : Event) (st : AppState) : AppState :=
  match e with
  | FileUpload fault file => handleFileUpload fault file st
  | SampleSelect fault model outcome => handleSampleModelSelect fault model outcome st
  | AddAnnotation now draw r1 r2 r3 => handleAddAnnotation now draw r1 r2 r3 st
  | EditAnnotation i data => handleEditAnnotation i data st
  | DeleteAnnotation i => handleDeleteAnnotation i st
  | SelectAnnotation i => handleSelectAnnotation i st
  | AlertClose => handleAlertClose st
  end.

(** The annotations panel selects only ids of the rows it shows
    ([annotations.map], lines 115-119 of AnnotationsPanel.tsx). *)
Definition offered (st : AppState) (e : Event) : Prop :=
  match e with
  | SelectAnnotation i => i ∈ (id <$> annotations st)
  | _ => True
  end.

(** The states the app can be in. *)
Inductive reachable (br : ModelFile.Browser) : AppState -> Prop :=
| reach_initial : reachable br (initialApp br)
| reach_step st e : reachable br st -> offered st e -> reachable br (handle e st).

End App.

(** ** utils/ThemeProvider.tsx: the stored theme preference *)
Module Theme.

(** What [getInitialMode] reads: whether [window] and its [localStorage]
    are there, the storage, and the [prefers-color-scheme: dark] query. *)
Record Window := mkWindow {
  hasLocalStorage : bool;
  localStorage : gmap string string;
  prefersDark : bool
}.

Definition getInitialMode (w : Window) : bool :=
  if hasLocalStorage w then
    match localStorage w !! "darkMode" with
    | Some storedPrefs => String.eqb storedPrefs "true"
    | None => if prefersDark w then true else false
    end
  else false.

(** [String(b)] *)
Definition stringOfBool (b : bool) : string := if b then "true" else "false".

(** [toggleDarkMode]: the new mode and the window afterwards. *)
Definition toggleDarkMode (darkMode : bool) (w : Window) : bool * Window :=
  let newMode := negb darkMode in
  (newMode,
   if hasLocalStorage w then
     mkWindow (hasLocalStorage w)
              (<["darkMode" := stringOfBool newMode]> (localStorage w))
              (prefersDark w)
   else w).

End Theme.

(** * Properties *)

(** ** Strings *)
Section JsStrings.
Import Js.

Lemma split_nonempty sep s : split sep s <> [].
Proof.
  destruct s as [|c s]; simpl; [discriminate|].
  destruct (Ascii.eqb c sep); [discriminate|].
  destruct (split sep s); discriminate.
Qed.

(** Splitting distributes over an occurrence of the separator. *)
Lemma split_app sep p q :
  split sep (p +:+ String sep q) = (split sep p ++ split sep q)%list.
Proof.
  induction p as [|c p IH]; simpl.
  - rewrite Ascii.eqb_refl. reflexivity.
  - destruct (Ascii.eqb c sep); rewrite IH; [reflexivity|].
    destruct (split sep p) as [|h t] eqn:E; [now apply split_nonempty in E|].
    reflexivity.
Qed.

Lemma split_no_sep sep s : includes sep s = false -> split sep s = [s].
Proof.
  induction s as [|c s IH]; simpl; [reflexivity|].
  intros [Hc Hs]%orb_false_iff. rewrite Hc, (IH Hs). reflexivity.
Qed.

Lemma pop_split_suffix sep p suf :
  includes sep suf = false -> pop (split sep (p +:+ String sep suf)) = Some suf.
Proof.
  intros H. unfold pop. rewrite split_app, (split_no_sep _ _ H).
  apply last_snoc.
Qed.

Lemma pop_split_is_Some sep s : is_Some (pop (split sep s)).
Proof. apply last_is_Some, split_nonempty. Qed.

(** The last segment is empty only for the empty string and for strings
    that end with the separator. *)
Lemma pop_split_empty sep s :
  pop (split sep s) = Some "" ->
  s = "" \/ exists p, s = p +:+ String sep "".
Proof.
  unfold pop. induction s as [|c s IH]; simpl; [now left|].
  destruct (Ascii.eqb_spec c sep) as [->|Hne].
  - intros H. right.
    destruct (split sep s) as [|h t] eqn:E; [now apply split_nonempty in E|].
    rewrite last_cons_cons in H.
    destruct (IH H) as [->|[p ->]]; [now exists ""|now exists (String sep p)].
  - destruct (split sep s) as [|h t] eqn:E; [now apply split_nonempty in E|].
    destruct t as [|h' t].
    + simpl. discriminate.
    + rewrite last_cons_cons. intros H. right.
      destruct (IH H) as [->|[p ->]]; [discriminate E|now exists (String c p)].
Qed.

Lemma lowerAscii_dot c : lowerAscii c = "."%char -> c = "."%char.
Proof.
  destruct c as [[] [] [] [] [] [] [] []]; vm_compute; congruence.
Qed.

Lemma includes_dot_toLowerCase s :
  includes "." (toLowerCase s) = includes "." s.
Proof.
  induction s as [|c s IH]; simpl; [reflexivity|].
  rewrite IH. f_equal.
  destruct (Ascii.eqb_spec (lowerAscii c) "."%char) as [H|H];
    destruct (Ascii.eqb_spec c "."%char) as [H'|H']; try reflexivity.
  - now apply lowerAscii_dot in H.
  - subst c. now contradiction H.
Qed.

Lemma toLowerCase_empty s : toLowerCase s = "" -> s = "".
Proof. destruct s; [reflexivity|discriminate]. Qed.

End JsStrings.

(** ** The definitions on small inputs *)
Section Runs.

Example split_dots : Js.split "." "a.b.GLB" = ["a"; "b"; "GLB"].
Proof. reflexivity. Qed.

Example split_empty_and_trailing :
  Js.split "." "" = [""] /\ Js.split "." "model." = ["model"; ""]
  /\ Js.split "/" "model/gltf-binary" = ["model"; "gltf-binary"].
Proof. repeat split. Qed.

Example detect_upper_case :
  ModelFile.detectExtension (ModelFile.mkFile "Duck.GLB" 10 "") = Some "glb".
Proof. reflexivity. Qed.

Example detect_from_mime :
  ModelFile.detectExtension (ModelFile.mkFile "" 10 "model/stl") = Some "stl"
  /\ ModelFile.detectExtension (ModelFile.mkFile "" 10 "text/plain") = Some "".
Proof. split; reflexivity. Qed.

Example extension_from_plain_url :
  Viewer.fileExtension Samples.URL_search ∅ "https://x/y/model.obj?v=2" = Some "obj".
Proof. reflexivity. Qed.

Example extension_from_blob_query :
  Viewer.fileExtension Samples.URL_search ∅ "blob:http://host/1234?name=duck.glb"
  = Some "glb"
  /\ Viewer.fileExtension Samples.URL_search ∅ "blob:1234?name=duck.GLB/raw#top"
     = Some "glb/raw"
  /\ Viewer.fileExtension Samples.URL_search ∅ "blob:http://host/1234" = Some ""
  /\ Samples.URL_search "blob:http://host/1234?" = Some "".
Proof. repeat split. Qed.

Example model_throws_on_unparseable_url :
  Samples.URL_search "blob://[" = None
  /\ Viewer.Model Samples.URL_search ∅ "blob://[" "solid" = None.
Proof. split; reflexivity. Qed.

Example max_of_box :
  F64.Math_max [F64.of_Z 1; F64.of_Z 3; F64.of_Z 2] = F64.of_Z 3
  /\ F64.Math_max [S754_zero true; F64.zero; S754_zero true] = F64.zero
  /\ F64.Math_max [F64.of_Z 1; F64.NaN; F64.of_Z 2] = F64.NaN.
Proof. repeat split. Qed.

Example clear_after_load :
  let st := ModelFile.mkState None false None None None in
  let br := ModelFile.mkBrowser "https://m3d.example.org" 0 ∅ ∅ in
  let loaded := ModelFile.loadModel ModelFile.NoFault (ModelFile.mkFile "a.stl" 5 "") st br in
  ModelFile.clearModel (fst loaded) (snd loaded)
  = (st, ModelFile.mkBrowser "https://m3d.example.org" 1 ∅ ∅).
Proof. vm_compute. reflexivity. Qed.

End Runs.

(** ** The format resolver and the size gate of [loadModel] *)
Section Resolver.
Import ModelFile.

Lemma supported_cases e :
  e ∈ supportedFormats ->
  e = "glb" \/ e = "gltf" \/ e = "obj" \/ e = "fbx" \/ e = "stl".
Proof.
  unfold supportedFormats. rewrite !elem_of_cons, elem_of_nil. tauto.
Qed.

Lemma supported_no_dot e : e ∈ supportedFormats -> Js.includes "." e = false.
Proof.
  intros H. apply supported_cases in H.
  destruct H as [->|[->|[->|[->| ->]]]]; reflexivity.
Qed.

Lemma supported_accepted e : e ∈ supportedFormats -> unsupported (Some e) = false.
Proof.
  intros H. unfold unsupported. rewrite (bool_decide_eq_true_2 _ H).
  apply supported_cases in H.
  destruct H as [->|[->|[->|[->| ->]]]]; reflexivity.
Qed.

(** A file name with a supported dotted suffix, in any letter case. *)
Lemma nameExtension_suffix prefix suf sz mime :
  Js.toLowerCase suf ∈ supportedFormats ->
  nameExtension (mkFile (prefix +:+ String "." suf) sz mime)
  = Some (Js.toLowerCase suf).
Proof.
  intros H. unfold nameExtension. simpl.
  rewrite pop_split_suffix; [reflexivity|].
  rewrite <- includes_dot_toLowerCase. now apply supported_no_dot.
Qed.

Lemma detectExtension_named f :
  Js.truthy_opt (nameExtension f) = true -> detectExtension f = nameExtension f.
Proof.
  intros H. unfold detectExtension, usesMimeFallback. now rewrite H.
Qed.

Lemma issued_revokeIfBlob u br : issued (revokeIfBlob u br) = issued br.
Proof.
  destruct u as [u|]; simpl; [|reflexivity].
  destruct (Js.startsWith "blob:" u); reflexivity.
Qed.

Lemma origin_revokeIfBlob u br : origin (revokeIfBlob u br) = origin br.
Proof.
  destruct u as [u|]; simpl; [|reflexivity].
  destruct (Js.startsWith "blob:" u); reflexivity.
Qed.

Lemma sessionStorage_revokeIfBlob u br :
  sessionStorage (revokeIfBlob u br) = sessionStorage br.
Proof.
  destruct u as [u|]; simpl; [|reflexivity].
  destruct (Js.startsWith "blob:" u); reflexivity.
Qed.

(** Passing both checks, with no exception: the new object URL becomes
    the model, and the detected extension its type. *)
Lemma loadModel_accepts f st br :
  (size f <= MAX_SIZE)%N ->
  unsupported (detectExtension f) = false ->
  let url := blobUrl (origin br) (issued br) in
  let result := loadModel NoFault f st br in
  modelUrl (fst result) = Some url
  /\ fileName (fst result) = Some (name f)
  /\ fileType (fst result) = detectExtension f
  /\ error (fst result) = None
  /\ isLoading (fst result) = false
  /\ blobs (snd result) !! url = Some f
  /\ sessionStorage (snd result) !! storageKey url = Some (Js.show (detectExtension f)).
Proof.
  intros Hsz Hsup. unfold loadModel.
  destruct (N.ltb_spec MAX_SIZE (size f)) as [Hlt|_]; [lia|].
  rewrite Hsup. simpl. rewrite issued_revokeIfBlob, origin_revokeIfBlob.
  repeat split; try reflexivity.
  - apply lookup_insert_eq.
  - apply lookup_insert_eq.
Qed.

(** C4. The resolver's priority chain: a file name with a dotted suffix
    from glb, gltf, obj, fbx, stl (in any letter case) resolves to that
    suffix whatever the MIME type is, and a file of admissible size is then
    loaded with that type; whenever the name yields a suffix the MIME type
    has no influence on the result; with an empty name the subtype is
    used, gltf+json giving gltf and gltf-binary giving glb. *)
Theorem resolver_priority_chain (prefix suf mime mime' : string) (sz : N)
    (st : State) (br : Browser) :
  Js.toLowerCase suf ∈ supportedFormats ->
  let f := mkFile (prefix +:+ String "." suf) sz mime in
  detectExtension f = Some (Js.toLowerCase suf)
  /\ unsupported (detectExtension f) = false
  /\ ((sz <= MAX_SIZE)%N ->
      fileType (fst (loadModel NoFault f st br)) = Some (Js.toLowerCase suf))
  /\ (forall nm, Js.truthy_opt (nameExtension (mkFile nm sz mime)) = true ->
        detectExtension (mkFile nm sz mime) = detectExtension (mkFile nm sz mime'))
  /\ detectExtension (mkFile "" sz "model/gltf+json") = Some "gltf"
  /\ detectExtension (mkFile "" sz "model/gltf-binary") = Some "glb".
Proof.
  intros Hsup f.
  assert (Hname : nameExtension f = Some (Js.toLowerCase suf))
    by now apply nameExtension_suffix.
  assert (Htruthy : Js.truthy_opt (nameExtension f) = true).
  { rewrite Hname. apply supported_cases in Hsup.
    destruct Hsup as [->|[->|[->|[->| ->]]]]; reflexivity. }
  assert (Hdet : detectExtension f = Some (Js.toLowerCase suf))
    by now rewrite detectExtension_named.
  split; [exact Hdet|]. split; [rewrite Hdet; now apply supported_accepted|].
  split.
  { intros Hsz. rewrite <- Hdet.
    apply (loadModel_accepts f st br Hsz).
    rewrite Hdet. now apply supported_accepted. }
  split.
  { intros nm H. rewrite detectExtension_named by exact H.
    rewrite detectExtension_named; [reflexivity|exact H]. }
  split; reflexivity.
Qed.

Lemma resolver_priority_chain_witness :
  let f := mkFile "Duck.GLB" 1024 "model/obj" in
  detectExtension f = Some "glb"
  /\ fileType (fst (loadModel NoFault f (mkState None false None None None)
                              (mkBrowser "https://m3d.example.org" 0 ∅ ∅))) = Some "glb".
Proof.
  pose proof (resolver_priority_chain "Duck" "GLB" "model/obj" "" 1024
                (mkState None false None None None)
                    (mkBrowser "https://m3d.example.org" 0 ∅ ∅)) as H.
  simpl in H.
  destruct H as (H1 & _ & H3 & _).
  - unfold supportedFormats. apply elem_of_cons. now left.
  - split; [exact H1|]. apply H3. vm_compute. discriminate.
Defined.

(** C5. A file larger than 100 MB is rejected with the size-limit message
    and nothing else happens: no object URL is created or revoked, session
    storage and the current model are as before. A file of exactly 100 MB
    passes the size check: it never gets the size-limit message, and with a
    supported format it is loaded under a fresh object URL. *)
Theorem loadModel_size_limit (fault : Fault) (f : File) (st : State) (br : Browser) :
  ((MAX_SIZE < size f)%N ->
     loadModel fault f st br = (setError (Some sizeLimitMessage) st, br))
  /\ (size f = MAX_SIZE ->
        error (fst (loadModel fault f st br)) <> Some sizeLimitMessage
        /\ (unsupported (detectExtension f) = false ->
            modelUrl (fst (loadModel NoFault f st br)) = Some (blobUrl (origin br) (issued br))
            /\ blobs (snd (loadModel NoFault f st br)) !! blobUrl (origin br) (issued br) = Some f)).
Proof.
  split.
  - intros H. unfold loadModel.
    destruct (N.ltb_spec MAX_SIZE (size f)) as [_|Hle]; [reflexivity|lia].
  - intros Heq. split.
    + unfold loadModel.
      destruct (N.ltb_spec MAX_SIZE (size f)) as [Hlt|_]; [lia|].
      destruct (unsupported (detectExtension f)); [simpl; discriminate|].
      destruct fault; simpl; discriminate.
    + intros Hsup.
      destruct (loadModel_accepts f st br) as (H1 & _ & _ & _ & _ & H6 & _);
        [lia|exact Hsup|]. now split.
Qed.

Lemma loadModel_size_limit_witness :
  let st := mkState None false None None None in
  let br := mkBrowser "https://m3d.example.org" 0 ∅ ∅ in
  loadModel NoFault (mkFile "big.glb" 104857601 "") st br
    = (setError (Some sizeLimitMessage) st, br)
  /\ modelUrl (fst (loadModel NoFault (mkFile "ok.glb" 104857600 "") st br))
     = Some "blob:https://m3d.example.org/0".
Proof.
  split.
  - apply (proj1 (loadModel_size_limit NoFault (mkFile "big.glb" 104857601 "")
                    (mkState None false None None None)
                        (mkBrowser "https://m3d.example.org" 0 ∅ ∅))).
    vm_compute. reflexivity.
  - apply (proj2 (loadModel_size_limit NoFault (mkFile "ok.glb" 104857600 "")
                    (mkState None false None None None)
                        (mkBrowser "https://m3d.example.org" 0 ∅ ∅)));
      reflexivity.
Defined.

(** C9 as stated fails: the fallback is not confined to the empty name.
    A name that ends with a dot yields the empty suffix, so the subtype
    decides: the file below is accepted as glb, and the same name with no
    MIME type is rejected. *)
Lemma mime_fallback_for_nonempty_name :
  let f := mkFile "model." 2048 "model/gltf-binary" in
  let st := mkState None false None None None in
  let br := mkBrowser "https://m3d.example.org" 0 ∅ ∅ in
  name f <> ""
  /\ usesMimeFallback f = true
  /\ fileType (fst (loadModel NoFault f st br)) = Some "glb"
  /\ error (fst (loadModel NoFault (mkFile "model." 2048 "") st br))
     = Some "Unsupported file format: .".
Proof. vm_compute. repeat split. discriminate. Qed.

(** C9, amended. The MIME fallback is taken only when the text after the
    last dot of the file name is empty, that is when the name is empty or
    ends with a dot. For a name without a dot the whole name, lower-cased,
    is the candidate suffix, and the fallback is taken only for the empty
    name: a file named model of type model/gltf-binary is rejected as
    unsupported, a file named obj is accepted as obj. *)
Theorem mime_fallback_only_without_suffix (f : File) (sz : N) (mime : string)
    (st : State) (br : Browser) :
  (sz <= MAX_SIZE)%N ->
  (usesMimeFallback f = true ->
     name f = "" \/ exists p, name f = p +:+ ".")
  /\ (Js.includes "." (name f) = false ->
        nameExtension f = Some (Js.toLowerCase (name f))
        /\ (usesMimeFallback f = true -> name f = ""))
  /\ loadModel NoFault (mkFile "model" sz "model/gltf-binary") st br
     = (setError (Some "Unsupported file format: .model") st, br)
  /\ fileType (fst (loadModel NoFault (mkFile "obj" sz mime) st br)) = Some "obj".
Proof.
  intros Hsz.
  assert (Hfb : usesMimeFallback f = true ->
                Js.pop (Js.split "." (name f)) = Some "").
  { unfold usesMimeFallback, nameExtension.
    destruct (pop_split_is_Some "." (name f)) as [e He]. rewrite He. simpl.
    intros [Hf _]%andb_true_iff. f_equal.
    apply toLowerCase_empty.
    destruct (Js.toLowerCase e); [reflexivity|discriminate Hf]. }
  split; [intros H; now apply pop_split_empty, Hfb|].
  split.
  { intros Hnodot.
    assert (Hpop : Js.pop (Js.split "." (name f)) = Some (name f))
      by (rewrite split_no_sep by exact Hnodot; reflexivity).
    split; [unfold nameExtension; now rewrite Hpop|].
    intros H. apply Hfb in H. congruence. }
  split.
  - unfold loadModel. cbn [size].
    destruct (N.ltb_spec MAX_SIZE sz) as [Hlt|_]; [lia|].
    reflexivity.
  - change (Some "obj") with (detectExtension (mkFile "obj" sz mime)).
    apply (loadModel_accepts (mkFile "obj" sz mime) st br); [exact Hsz|reflexivity].
Qed.

Lemma mime_fallback_only_without_suffix_witness :
  let st := mkState None false None None None in
  let br := mkBrowser "https://m3d.example.org" 0 ∅ ∅ in
  loadModel NoFault (mkFile "model" 2048 "model/gltf-binary") st br
  = (setError (Some "Unsupported file format: .model") st, br).
Proof.
  refine (proj1 (proj2 (proj2
    (mime_fallback_only_without_suffix (mkFile "model" 2048 "model/gltf-binary")
       2048 "" (mkState None false None None None)
           (mkBrowser "https://m3d.example.org" 0 ∅ ∅) _)))).
  vm_compute. discriminate.
Defined.

End Resolver.

(** ** The viewer: dispatch, render modes, OBJ loading *)
Section ViewerFacts.
Import Viewer.

(** Induction over the scene graph, children included. *)
Lemma Object3D_forall_ind (P : Object3D -> Prop) :
  (forall isMesh material children,
      Forall P children -> P (Object isMesh material children)) ->
  forall o, P o.
Proof.
  intros step. fix self 1. intros [isMesh material children].
  apply step. induction children as [|c cs IH]; constructor; [apply self|exact IH].
Qed.

Lemma traverse_id cb o : (forall m, cb m = m) -> traverse cb o = o.
Proof.
  intros Hcb. induction o as [isMesh material children IH] using Object3D_forall_ind.
  simpl. rewrite Hcb. f_equal; [now destruct isMesh|].
  induction IH as [|c cs Hc _ IHcs]; simpl; [reflexivity|]. now rewrite Hc, IHcs.
Qed.

Lemma meshMaterials_traverse cb o :
  meshMaterials (traverse cb o) = List.map cb (meshMaterials o).
Proof.
  induction o as [isMesh material children IH] using Object3D_forall_ind.
  simpl. rewrite List.map_app. f_equal; [now destruct isMesh|].
  induction IH as [|c cs Hc _ IHcs]; simpl; [reflexivity|].
  now rewrite List.map_app, Hc, IHcs.
Qed.

(** In [GLTFModel] the textured pass assigns nothing. *)
Lemma gltf_textured_keeps_current scene :
  applyRenderModeGLTF "textured" scene = scene.
Proof. apply traverse_id. reflexivity. Qed.

(** X1. In [GLTFModel], after a wireframe pass followed by a textured
    pass every mesh of every scene carries the wireframe material, whatever
    it was parsed with. *)
Lemma gltf_wireframe_then_textured scene :
  meshMaterials (applyRenderModeGLTF "textured" (applyRenderModeGLTF "wireframe" scene))
  = List.map (fun _ => One wireframeMaterial) (meshMaterials scene).
Proof.
  rewrite gltf_textured_keeps_current. unfold applyRenderModeGLTF.
  rewrite meshMaterials_traverse. reflexivity.
Qed.

(** X2. In [OBJModel], after a wireframe pass followed by a textured pass
    every mesh of every object carries the gray default material: the
    textured pass finds the unnamed wireframe material and replaces it. *)
Lemma obj_wireframe_then_textured obj :
  meshMaterials (applyRenderModeOBJ "textured" (applyRenderModeOBJ "wireframe" obj))
  = List.map (fun _ => One defaultMaterial) (meshMaterials obj).
Proof.
  unfold applyRenderModeOBJ. rewrite !meshMaterials_traverse, List.map_map.
  reflexivity.
Qed.

(** C1. Wireframe followed by textured does not bring back the parsed
    material: on a scene with one mesh parsed with a named, texture-mapped
    material, [GLTFModel] leaves the green wireframe material on the mesh
    and [OBJModel] leaves the flat-gray default material on it. *)
Theorem wireframe_then_textured_loses_material :
  let parsed := mkMaterial MeshStandardMaterial "Body" 0xff0000 false false (Some "body.png") in
  let scene := Object false Absent [Object true (One parsed) []] in
  applyRenderModeGLTF "textured" (applyRenderModeGLTF "wireframe" scene)
    = Object false Absent [Object true (One wireframeMaterial) []]
  /\ applyRenderModeOBJ "textured" (applyRenderModeOBJ "wireframe" scene)
    = Object false Absent [Object true (One defaultMaterial) []]
  /\ One wireframeMaterial <> One parsed
  /\ One defaultMaterial <> One parsed.
Proof. repeat split; discriminate. Qed.

Lemma dispatch_unrecognized ext url mode :
  ext ∉ recognized ->
  dispatch ext url mode
  = ErrorMessage ("Unsupported file format: " +:+
                  (if Js.truthy ext then ext else "unknown")).
Proof.
  unfold recognized. rewrite !not_elem_of_cons. intros (H1 & H2 & H3 & H4 & H5 & _).
  unfold dispatch.
  rewrite (proj2 (String.eqb_neq _ _) H1), (proj2 (String.eqb_neq _ _) H2),
    (proj2 (String.eqb_neq _ _) H3), (proj2 (String.eqb_neq _ _) H4),
    (proj2 (String.eqb_neq _ _) H5).
  reflexivity.
Qed.

(** C6. A handle whose format resolves to stl or fbx is rendered as the
    placeholder that names the format, not as an error; a handle whose
    format is none of gltf, glb, obj, stl, fbx is rendered as the
    unsupported-format error, which is a different element. *)
Theorem stl_fbx_placeholder_unknown_error
    (URL_search : string -> option string)
    (storage : gmap string string) (url mode ext : string) :
  fileExtension URL_search storage url = Some ext ->
  (ext = "stl" ->
     Model URL_search storage url mode
     = Some (PlaceholderModel "STL format support coming soon"))
  /\ (ext = "fbx" ->
     Model URL_search storage url mode
     = Some (PlaceholderModel "FBX format support coming soon"))
  /\ (ext ∉ recognized ->
     Model URL_search storage url mode
     = Some (ErrorMessage ("Unsupported file format: " +:+
                           (if Js.truthy ext then ext else "unknown"))))
  /\ (forall m1 m2, PlaceholderModel m1 <> ErrorMessage m2).
Proof.
  intros Hext. unfold Model. rewrite Hext.
  split; [intros ->; reflexivity|].
  split; [intros ->; reflexivity|].
  split; [intros H; now rewrite dispatch_unrecognized|discriminate].
Qed.

Lemma stl_fbx_placeholder_unknown_error_witness :
  Model Samples.URL_search {[ "fileType_blob:https://m3d.example.org/0" := "stl" ]}
        "blob:https://m3d.example.org/0" "textured"
  = Some (PlaceholderModel "STL format support coming soon").
Proof.
  refine (proj1 (stl_fbx_placeholder_unknown_error Samples.URL_search
                   {[ "fileType_blob:https://m3d.example.org/0" := "stl" ]}
                   "blob:https://m3d.example.org/0" "textured" "stl" _) _).
  - vm_compute. reflexivity.
  - reflexivity.
Defined.

End ViewerFacts.

(** ** Replacing the displayed model *)
Section Replacement.
Import ModelFile.

Lemma string_app_inv_head (a b c : string) : a +:+ b = a +:+ c -> b = c.
Proof.
  induction a as [|x a IH]; simpl; intros H; [exact H|].
  injection H as H. now apply IH.
Qed.

(** Two object URLs of one page are equal only if they are the same issue. *)
Lemma blobUrl_inj o n m : blobUrl o n = blobUrl o m -> n = m.
Proof.
  unfold blobUrl. intros H.
  do 3 apply string_app_inv_head in H. now apply (inj pretty) in H.
Qed.

Lemma blobUrl_is_blob o n : Js.startsWith "blob:" (blobUrl o n) = true.
Proof. reflexivity. Qed.

Lemma blobUrl_truthy o n : Js.truthy (blobUrl o n) = true.
Proof. reflexivity. Qed.

(** A load that fails one of the two checks only sets the error cell. *)
Lemma loadModel_rejects fault f st br :
  (MAX_SIZE < size f)%N \/ unsupported (detectExtension f) = true ->
  exists msg, loadModel fault f st br = (setError (Some msg) st, br).
Proof.
  intros H. unfold loadModel.
  destruct (MAX_SIZE <? size f)%N eqn:Hsz; [eauto|].
  destruct H as [H|H]; [apply N.ltb_ge in Hsz; lia|].
  rewrite H. eauto.
Qed.

(** A load that passes the checks revokes the previous object URL before
    anything else, whichever way the [try] block ends. *)
Lemma loadModel_revokes_previous fault f st br n :
  (size f <= MAX_SIZE)%N ->
  unsupported (detectExtension f) = false ->
  modelUrl st = Some (blobUrl (origin br) n) -> (n < issued br)%N ->
  blobs (snd (loadModel fault f st br)) !! blobUrl (origin br) n = None.
Proof.
  intros Hsz Hsup Hurl Hn. unfold loadModel.
  destruct (N.ltb_spec MAX_SIZE (size f)) as [Hlt|_]; [lia|].
  rewrite Hsup, Hurl. unfold revokeIfBlob. rewrite blobUrl_is_blob.
  assert (Hne : blobUrl (origin br) (issued br) <> blobUrl (origin br) n)
    by (intros E; apply blobUrl_inj in E; lia).
  destruct fault; simpl.
  - rewrite lookup_insert_ne by exact Hne. apply lookup_delete_eq.
  - apply lookup_delete_eq.
  - rewrite lookup_insert_ne by exact Hne. apply lookup_delete_eq.
Qed.

(** After an accepted load the dispatch reads the stored extension. *)
Lemma fileExtension_after_load URL_search f st br ext :
  (size f <= MAX_SIZE)%N ->
  detectExtension f = Some ext -> unsupported (Some ext) = false ->
  Viewer.fileExtension URL_search (sessionStorage (snd (loadModel NoFault f st br)))
                       (blobUrl (origin br) (issued br)) = Some ext.
Proof.
  intros Hsz Hdet Hsup.
  destruct (loadModel_accepts f st br Hsz) as (_ & _ & _ & _ & _ & _ & Hst);
    [now rewrite Hdet|].
  unfold Viewer.fileExtension. rewrite Hst, Hdet, blobUrl_truthy. simpl.
  unfold unsupported in Hsup. simpl in Hsup.
  destruct (Js.truthy ext); [reflexivity|discriminate Hsup].
Qed.

(** A parse failure reported by the OBJ loader ends in the error
    message, whatever object the component still holds. *)
Lemma obj_parse_failure_shows_error run ost :
  Viewer.importOk run = true -> Viewer.probe run <> Viewer.MtlStalled ->
  Viewer.parsed run = None ->
  Viewer.renderOBJ (Viewer.loadOBJ run ost)
  = Viewer.ShowError "Failed to load OBJ model".
Proof.
  intros Himp Hprobe Hparsed. unfold Viewer.loadOBJ.
  rewrite Himp, Hparsed. simpl.
  destruct (Viewer.probe run); try reflexivity. now contradiction Hprobe.
Qed.

(** C3 as stated fails. An OBJ model is displayed from the page's first
    object URL; the user drops bad.obj, which passes the size and format
    checks and then fails to parse. The hook now points at the second
    object URL, the first has been revoked, and the viewer shows the error
    instead of the previous model. *)
Lemma failed_replacement_discards_previous :
  let good := mkFile "good.obj" 10 "" in
  let bad := mkFile "bad.obj" 10 "" in
  let shown := Viewer.Object true Viewer.Absent [] in
  let st := mkState (Some "blob:https://m3d.example.org/0") false None
                    (Some "good.obj") (Some "obj") in
  let br := mkBrowser "https://m3d.example.org" 1
                      {[ "blob:https://m3d.example.org/0" := good ]}
                      {[ "fileType_blob:https://m3d.example.org/0" := "obj" ]} in
  let ost := Viewer.mkOBJ (Some shown) None false in
  let run := Viewer.mkRun true Viewer.MtlNotFound None in
  let after := loadModel NoFault bad st br in
  Viewer.renderOBJ ost = Viewer.Primitive shown
  /\ blobs br !! "blob:https://m3d.example.org/0" = Some good
  /\ modelUrl (fst after) = Some "blob:https://m3d.example.org/1"
  /\ blobs (snd after) !! "blob:https://m3d.example.org/0" = None
  /\ Viewer.Model Samples.URL_search (sessionStorage (snd after))
                  "blob:https://m3d.example.org/1" "textured"
     = Some (Viewer.OBJModel "blob:https://m3d.example.org/1" "textured")
  /\ Viewer.renderOBJ (Viewer.loadOBJ run ost)
     = Viewer.ShowError "Failed to load OBJ model".
Proof. vm_compute. repeat split. Qed.

(** C3, amended. A replacement load that fails the size or the format
    check leaves the current model as it is: only the error cell changes,
    the browser's object URLs and session storage are untouched. A
    replacement that passes both checks revokes the previous object URL
    and, when no browser call throws, makes the new object URL the model
    before anything is parsed; an OBJ parse failure after that shows the
    error message and does not bring the previous model back. *)
Theorem replacement_load_outcomes (URL_search : string -> option string)
    (fault : Fault) (f : File) (st : State)
    (br : Browser) (n : N) (run : Viewer.LoadRun) (ost : Viewer.OBJState)
    (mode : string) :
  modelUrl st = Some (blobUrl (origin br) n) -> (n < issued br)%N ->
  let after := loadModel fault f st br in
  ((MAX_SIZE < size f)%N \/ unsupported (detectExtension f) = true ->
     modelUrl (fst after) = Some (blobUrl (origin br) n)
     /\ fileName (fst after) = fileName st
     /\ fileType (fst after) = fileType st
     /\ is_Some (error (fst after))
     /\ snd after = br)
  /\ ((size f <= MAX_SIZE)%N -> unsupported (detectExtension f) = false ->
      blobs (snd after) !! blobUrl (origin br) n = None
      /\ (fault = NoFault ->
          modelUrl (fst after) = Some (blobUrl (origin br) (issued br))
          /\ blobUrl (origin br) (issued br) <> blobUrl (origin br) n
          /\ (detectExtension f = Some "obj" ->
              Viewer.Model URL_search (sessionStorage (snd after))
                           (blobUrl (origin br) (issued br)) mode
              = Some (Viewer.OBJModel (blobUrl (origin br) (issued br)) mode)))
      /\ (Viewer.importOk run = true -> Viewer.probe run <> Viewer.MtlStalled ->
          Viewer.parsed run = None ->
          Viewer.renderOBJ (Viewer.loadOBJ run ost)
          = Viewer.ShowError "Failed to load OBJ model")).
Proof.
  intros Hurl Hn after. subst after. split.
  - intros Hrej. destruct (loadModel_rejects fault f st br Hrej) as [msg ->].
    simpl. rewrite Hurl. repeat split; eauto.
  - intros Hsz Hsup. split; [now apply loadModel_revokes_previous|].
    split; [|apply obj_parse_failure_shows_error].
    intros ->. split; [apply (loadModel_accepts f st br Hsz Hsup)|].
    split; [intros E; apply blobUrl_inj in E; lia|].
    intros Hobj. unfold Viewer.Model.
    rewrite (fileExtension_after_load URL_search f st br "obj" Hsz Hobj eq_refl).
    reflexivity.
Qed.

Lemma replacement_load_outcomes_witness :
  let st := mkState (Some "blob:https://m3d.example.org/0") false None
                    (Some "good.obj") (Some "obj") in
  let br := mkBrowser "https://m3d.example.org" 1
                      {[ "blob:https://m3d.example.org/0" := mkFile "good.obj" 10 "" ]}
                      {[ "fileType_blob:https://m3d.example.org/0" := "obj" ]} in
  blobs (snd (loadModel NoFault (mkFile "bad.obj" 10 "") st br))
    !! "blob:https://m3d.example.org/0" = None.
Proof.
  refine (proj1 (proj2 (replacement_load_outcomes Samples.URL_search NoFault
    (mkFile "bad.obj" 10 "")
    (mkState (Some "blob:https://m3d.example.org/0") false None
             (Some "good.obj") (Some "obj"))
    (mkBrowser "https://m3d.example.org" 1
               {[ "blob:https://m3d.example.org/0" := mkFile "good.obj" 10 "" ]}
               {[ "fileType_blob:https://m3d.example.org/0" := "obj" ]})
    0 (Viewer.mkRun true Viewer.MtlNotFound None) Viewer.initialOBJ "textured"
    _ _) _ _)).
  - reflexivity.
  - reflexivity.
  - vm_compute. discriminate.
  - reflexivity.
Defined.

End Replacement.

(** ** Floating-point facts *)
Section FloatFacts.
Import F64.





Lemma div_by_zero_not_finite a b : isZero b = true -> isFinite (div a b) = false.
Proof. destruct b; [|discriminate..]. intros _. destruct a; reflexivity. Qed.


Lemma mul_not_finite_r a b : isFinite b = false -> isFinite (mul a b) = false.
Proof. destruct b; [discriminate| | |discriminate]; intros _; destruct a; reflexivity. Qed.


Lemma add_not_finite_r a b : isFinite b = false -> isFinite (add a b) = false.
Proof.
  destruct b as [|sb| |]; [discriminate| | |discriminate]; intros _.
  - destruct a as [|sa| |]; try reflexivity. destruct sa, sb; reflexivity.
  - destruct a; reflexivity.
Qed.


End FloatFacts.

(** ** Camera auto-fit *)
Section AutoFit.
Import F64 Three Viewer.

Variable Math_sin : float -> float.



End AutoFit.

Section AutoFitClaims.
Import F64 Three Viewer.




End AutoFitClaims.

(** ** Screen to world *)
Section ScreenToWorld.
Import F64 Three Projection.

Variable unproject : Vector3 -> Camera -> Vector3.
Variable normalize : Vector3 -> Vector3.

(** C10. [screenToWorld] divides by the [z] of the normalised ray
    direction with no guard: whenever that component is zero, for every
    camera, viewport, screen point and depth, and whatever [unproject] and
    [normalize] compute, none of the three coordinates of the returned
    vector is finite. The function itself always returns a vector. *)
Theorem screenToWorld_zero_direction_not_finite
    (screenX screenY : float) (camera : Camera)
    (clientWidth clientHeight depth : float) :
  isZero (z (rayDirection unproject normalize screenX screenY camera
                          clientWidth clientHeight depth)) = true ->
  let pos := screenToWorld unproject normalize screenX screenY camera
                           clientWidth clientHeight depth in
  isFinite (x pos) = false /\ isFinite (y pos) = false /\ isFinite (z pos) = false.
Proof.
  unfold rayDirection, screenToWorld. cbv zeta.
  set (dir := normalize _). intros Hz.
  set (distance := div _ (z dir)).
  assert (Hd : isFinite distance = false) by now apply div_by_zero_not_finite.
  simpl. repeat split; now apply add_not_finite_r, mul_not_finite_r.
Qed.

End ScreenToWorld.

Lemma screenToWorld_zero_direction_not_finite_witness :
  let pos := Projection.screenToWorld Three.unproject Three.normalize
               (F64.of_Z 100) (F64.of_Z 50) Samples.cameraAt5
               (F64.of_Z 800) (F64.of_Z 600) F64.zero in
  F64.isFinite (Three.x pos) = false
  /\ F64.isFinite (Three.y pos) = false
  /\ F64.isFinite (Three.z pos) = false.
Proof.
  apply (screenToWorld_zero_direction_not_finite Three.unproject Three.normalize
           (F64.of_Z 100) (F64.of_Z 50) Samples.cameraAt5
           (F64.of_Z 800) (F64.of_Z 600) F64.zero).
  vm_compute. reflexivity.
Defined.








(** On that camera the default depth 0 sends the ray to infinity. *)
Example screenToWorld_cameraAt5 :
  Projection.screenToWorld Three.unproject Three.normalize
    (F64.of_Z 100) (F64.of_Z 50) Samples.cameraAt5 (F64.of_Z 800) (F64.of_Z 600) F64.zero
  = Three.vec3 (S754_infinity false) (S754_infinity true) S754_nan.
Proof. vm_compute. reflexivity. Qed.

(** ** The annotation manager *)
Section AnnotationFacts.
Import Annotations.

Lemma pretty_N_char_not_dash d : Ascii.eqb (pretty_N_char d) "-" = false.
Proof. unfold pretty_N_char. repeat case_match; reflexivity. Qed.

Lemma pretty_N_go_dash n s :
  Js.includes "-" (pretty_N_go n s) = Js.includes "-" s.
Proof.
  revert s. induction (N.lt_wf_0 n) as [n _ IH]. intros s.
  destruct (decide (0 < n)%N) as [Hn|Hn].
  - rewrite pretty_N_go_step by exact Hn.
    rewrite IH by (apply N.div_lt; lia).
    simpl. now rewrite pretty_N_char_not_dash.
  - replace n with 0%N by lia. now rewrite pretty_N_go_0.
Qed.

(** A printed number is all digits. *)
Lemma pretty_N_no_dash (n : N) : Js.includes "-" (pretty n) = false.
Proof.
  unfold pretty, pretty_N. case_decide; [reflexivity|]. apply pretty_N_go_dash.
Qed.

(** Two dash-free fields joined by a dash can be read back. *)
Lemma dash_joined_inj p p' q q' :
  Js.includes "-" p = false -> Js.includes "-" p' = false ->
  p +:+ String "-" q = p' +:+ String "-" q' -> p = p' /\ q = q'.
Proof.
  revert p'. induction p as [|c p IH]; intros [|c' p']; simpl.
  - intros _ _ H. injection H as H. now split.
  - intros _ [Hc _]%orb_false_iff H. injection H as Hc' _. subst c'. discriminate Hc.
  - intros [Hc _]%orb_false_iff _ H. injection H as Hc' _. subst c. discriminate Hc.
  - intros [_ Hp]%orb_false_iff [_ Hp']%orb_false_iff H. injection H as -> H.
    destruct (IH p' Hp Hp' H) as [-> ->]. now split.
Qed.

(** The id determines the clock reading and the draw. *)
Lemma makeId_inj now draw now' draw' :
  makeId now draw = makeId now' draw' -> now = now' /\ draw = draw'.
Proof.
  unfold makeId. intros H. injection H as H.
  change (pretty now +:+ String "-" (pretty draw)
          = pretty now' +:+ String "-" (pretty draw')) in H.
  apply dash_joined_inj in H; try apply pretty_N_no_dash.
  destruct H as [H1 H2]. split; now apply (inj pretty).
Qed.

Lemma addAnnotation_id now draw d l : id (fst (addAnnotation now draw d l)) = makeId now draw.
Proof. reflexivity. Qed.

Lemma elem_of_removeAnnotation i l a :
  a ∈ removeAnnotation i l <-> a ∈ l /\ id a <> i.
Proof. unfold removeAnnotation. rewrite list_elem_of_filter. tauto. Qed.

Lemma removeAnnotation_sublist i l : removeAnnotation i l `sublist_of` l.
Proof. apply sublist_filter. Qed.

(** Removing an id that no record carries changes nothing. *)
Lemma removeAnnotation_absent i l :
  (forall a, a ∈ l -> id a <> i) -> removeAnnotation i l = l.
Proof.
  unfold removeAnnotation. induction l as [|a l IH]; intros H; [reflexivity|].
  rewrite filter_cons_True by (apply H; left).
  f_equal. apply IH. intros b Hb. apply H. now right.
Qed.

(** C8 as stated fails: two adds with the same data, in the same
    millisecond and with the same draw, give the same id; removing it then
    deletes both records. *)
Lemma same_tick_same_draw_same_id :
  let d := mkData (Three.vec3 F64.zero F64.zero F64.zero) "New Annotation"
                  "Click to edit this annotation" (Some "#3f51b5") in
  let first := addAnnotation 1700000000000 7 d [] in
  let second := addAnnotation 1700000000000 7 d (snd first) in
  id (fst first) = id (fst second)
  /\ id (fst second) = "annotation-1700000000000-7"
  /\ snd second = [fst first; fst second]
  /\ removeAnnotation (id (fst second)) (snd second) = [].
Proof. vm_compute. repeat split. Qed.

(** C8, amended. Two adds with identical data give distinct ids whenever
    the two calls differ in the clock's millisecond or in the random draw
    (with both equal the ids coincide); the records are appended in call
    order. Removing the just-added id leaves exactly the records with
    another id, each unchanged and in the original relative order; when
    no other record carries that id, what is left is the collection as it
    was before that add. *)
Theorem add_twice_then_remove (now1 draw1 now2 draw2 : N) (d : AnnotationData)
    (l : list Annotation) :
  let first := addAnnotation now1 draw1 d l in
  let second := addAnnotation now2 draw2 d (snd first) in
  let removed := removeAnnotation (id (fst second)) (snd second) in
  (now1 <> now2 \/ draw1 <> draw2 -> id (fst first) <> id (fst second))
  /\ (now1 = now2 -> draw1 = draw2 -> id (fst first) = id (fst second))
  /\ snd second = (l ++ [fst first; fst second])%list
  /\ (forall a, a ∈ removed <-> a ∈ snd second /\ id a <> id (fst second))
  /\ removed `sublist_of` snd second
  /\ ((forall a, a ∈ snd first -> id a <> id (fst second)) -> removed = snd first).
Proof.
  intros first second removed.
  split.
  { intros Hne Heq. apply makeId_inj in Heq. destruct Heq, Hne; congruence. }
  split; [intros -> ->; reflexivity|].
  split; [subst second first; simpl; now rewrite <- app_assoc|].
  split; [intros a; apply elem_of_removeAnnotation|].
  split; [apply removeAnnotation_sublist|].
  intros Hfresh. subst removed. unfold removeAnnotation.
  change (snd second) with (snd first ++ [fst second])%list.
  rewrite filter_app, filter_cons_False, filter_nil, app_nil_r by (intros H; now apply H).
  now apply removeAnnotation_absent.
Qed.

Lemma add_twice_then_remove_witness :
  let d := mkData (Three.vec3 F64.zero F64.zero F64.zero) "New Annotation"
                  "Click to edit this annotation" (Some "#3f51b5") in
  id (fst (addAnnotation 1700000000000 7 d []))
  <> id (fst (addAnnotation 1700000000000 8 d (snd (addAnnotation 1700000000000 7 d [])))).
Proof.
  refine (proj1 (add_twice_then_remove 1700000000000 7 1700000000000 8
    (mkData (Three.vec3 F64.zero F64.zero F64.zero) "New Annotation"
            "Click to edit this annotation" (Some "#3f51b5")) []) _).
  right. discriminate.
Defined.

End AnnotationFacts.

(** ** Render-mode passes on whole scenes *)
Section RenderModes.
Import Viewer Scene.

Lemma traverse_compose f g o :
  traverse f (traverse g o) = traverse (fun m => f (g m)) o.
Proof.
  induction o as [isMesh material children IH] using Object3D_forall_ind.
  simpl. f_equal; [now destruct isMesh|].
  rewrite List.map_map.
  induction IH as [|c cs Hc _ IHcs]; simpl; [reflexivity|]. now rewrite Hc, IHcs.
Qed.

Lemma traverse_ext f g o :
  (forall m, f m = g m) -> traverse f o = traverse g o.
Proof.
  intros Hfg. induction o as [isMesh material children IH] using Object3D_forall_ind.
  simpl. rewrite Hfg. f_equal.
  induction IH as [|c cs Hc _ IHcs]; simpl; [reflexivity|]. now rewrite Hc, IHcs.
Qed.

(** A pass changes nothing when it gives every mesh the slot it has. *)
Lemma traverse_fixed cb o :
  Forall (fun slot => cb slot = slot) (meshMaterials o) -> traverse cb o = o.
Proof.
  induction o as [isMesh material children IH] using Object3D_forall_ind.
  simpl. intros [Hm Hcs]%Forall_app. f_equal.
  - destruct isMesh; [now inversion Hm|reflexivity].
  - clear Hm. induction IH as [|c cs Hc _ IHcs]; simpl; [reflexivity|].
    simpl in Hcs. apply Forall_app in Hcs as [H1 H2].
    now rewrite Hc, IHcs.
Qed.

Lemma stripMeshMaterials_traverse cb o :
  stripMeshMaterials (traverse cb o) = stripMeshMaterials o.
Proof.
  induction o as [isMesh material children IH] using Object3D_forall_ind.
  simpl. f_equal; [now destruct isMesh|].
  rewrite List.map_map.
  induction IH as [|c cs Hc _ IHcs]; simpl; [reflexivity|]. now rewrite Hc, IHcs.
Qed.

Lemma gltfMeshMaterial_idempotent mode m :
  gltfMeshMaterial mode (gltfMeshMaterial mode m) = gltfMeshMaterial mode m.
Proof.
  unfold gltfMeshMaterial.
  destruct (String.eqb mode "wireframe"); [reflexivity|].
  destruct (String.eqb mode "solid"); reflexivity.
Qed.

Lemma objMeshMaterial_idempotent mode m :
  objMeshMaterial mode (objMeshMaterial mode m) = objMeshMaterial mode m.
Proof.
  unfold objMeshMaterial.
  destruct (String.eqb mode "wireframe"); [reflexivity|].
  destruct (String.eqb mode "solid"); [reflexivity|].
  destruct (String.eqb mode "textured"); [|reflexivity].
  destruct m as [|m|[|m ms]]; try reflexivity.
  destruct (String.eqb (mname m) "") eqn:E; [reflexivity|now rewrite E].
Qed.

(** X3. Applying a render mode twice is the same as applying it once, for
    every mode string and every scene, in [GLTFModel] and in [OBJModel]. *)
Theorem render_mode_idempotent (mode : string) (scene : Object3D) :
  applyRenderModeGLTF mode (applyRenderModeGLTF mode scene)
  = applyRenderModeGLTF mode scene
  /\ applyRenderModeOBJ mode (applyRenderModeOBJ mode scene)
     = applyRenderModeOBJ mode scene.
Proof.
  unfold applyRenderModeGLTF, applyRenderModeOBJ. rewrite !traverse_compose.
  split; apply traverse_ext; intros m;
    [apply gltfMeshMaterial_idempotent|apply objMeshMaterial_idempotent].
Qed.

(** X4. The wireframe and the solid pass forget what was there: their
    result is the same after any earlier pass as on the freshly parsed
    scene, and every mesh carries the one material of the mode. *)
Theorem wireframe_and_solid_forget_history (mode previous : string) (scene : Object3D) :
  mode = "wireframe" \/ mode = "solid" ->
  let m := if String.eqb mode "wireframe" then wireframeMaterial else solidMaterial in
  applyRenderModeGLTF mode (applyRenderModeGLTF previous scene)
  = applyRenderModeGLTF mode scene
  /\ applyRenderModeOBJ mode (applyRenderModeOBJ previous scene)
     = applyRenderModeOBJ mode scene
  /\ applyRenderModeOBJ mode scene = applyRenderModeGLTF mode scene
  /\ meshMaterials (applyRenderModeGLTF mode scene)
     = List.map (fun _ => One m) (meshMaterials scene).
Proof.
  intros Hmode m. unfold applyRenderModeGLTF, applyRenderModeOBJ.
  rewrite !traverse_compose, meshMaterials_traverse.
  destruct Hmode as [-> | ->]; repeat split; try (apply traverse_ext; reflexivity).
Qed.

Lemma wireframe_and_solid_forget_history_witness :
  let scene := Object false Absent [Object true (One defaultMaterial) []] in
  applyRenderModeGLTF "solid" (applyRenderModeGLTF "wireframe" scene)
  = applyRenderModeGLTF "solid" scene.
Proof.
  refine (proj1 (wireframe_and_solid_forget_history "solid" "wireframe"
                   (Object false Absent [Object true (One defaultMaterial) []]) _)).
  now right.
Defined.

(** X5. A render-mode pass touches nothing but the material slots of
    meshes: the tree of objects, their [isMesh] flags and the materials of
    objects that are not meshes are as before, for every mode string. *)
Theorem render_mode_touches_only_mesh_materials (mode : string) (scene : Object3D) :
  stripMeshMaterials (applyRenderModeGLTF mode scene) = stripMeshMaterials scene
  /\ stripMeshMaterials (applyRenderModeOBJ mode scene) = stripMeshMaterials scene
  /\ List.length (meshMaterials (applyRenderModeGLTF mode scene))
     = List.length (meshMaterials scene)
  /\ List.length (meshMaterials (applyRenderModeOBJ mode scene))
     = List.length (meshMaterials scene).
Proof.
  unfold applyRenderModeGLTF, applyRenderModeOBJ.
  rewrite !stripMeshMaterials_traverse, !meshMaterials_traverse, !List.length_map.
  repeat split.
Qed.

Lemma objMeshMaterial_textured slot :
  objMeshMaterial "textured" slot
  = if namedOrArray slot then slot else One defaultMaterial.
Proof.
  destruct slot as [|m|[|m ms]]; try reflexivity.
  unfold objMeshMaterial, namedOrArray, Js.truthy. simpl.
  destruct (String.eqb (mname m) ""); reflexivity.
Qed.

(** X6. The textured pass of [OBJModel] keeps a mesh's material exactly
    when it is a single named material or a non-empty array, and gives
    every other mesh the gray default, also one parsed with an unnamed
    material. Afterwards every mesh has a material to draw with, and an
    object whose meshes all carry named materials or arrays is unchanged. *)
Theorem obj_textured_pass (obj : Object3D) :
  meshMaterials (applyRenderModeOBJ "textured" obj)
  = List.map (fun slot => if namedOrArray slot then slot else One defaultMaterial)
             (meshMaterials obj)
  /\ Forall (fun slot => hasMaterial slot = true)
            (meshMaterials (applyRenderModeOBJ "textured" obj))
  /\ (Forall (fun slot => namedOrArray slot = true) (meshMaterials obj) ->
      applyRenderModeOBJ "textured" obj = obj).
Proof.
  unfold applyRenderModeOBJ. rewrite meshMaterials_traverse.
  split; [apply List.map_ext, objMeshMaterial_textured|].
  split.
  - apply Forall_forall. intros slot [s [<- _]]%list_elem_of_In%List.in_map_iff.
    rewrite objMeshMaterial_textured.
    destruct s as [|m|[|m ms]]; simpl; try reflexivity.
    destruct (Js.truthy (mname m)); reflexivity.
  - intros H. apply traverse_fixed. eapply Forall_impl; [exact H|].
    intros slot Hs. simpl in Hs. now rewrite objMeshMaterial_textured, Hs.
Qed.

Lemma obj_textured_pass_witness :
  let named := mkMaterial MeshPhongMaterial "Body" 0xff0000 false false (Some "body.png") in
  let obj := Object false Absent [Object true (One named) []] in
  applyRenderModeOBJ "textured" obj = obj.
Proof.
  refine (proj2 (proj2 (obj_textured_pass
    (Object false Absent
       [Object true (One (mkMaterial MeshPhongMaterial "Body" 0xff0000 false false
                                     (Some "body.png"))) []]))) _).
  repeat constructor.
Defined.

End RenderModes.

(** ** Loading an OBJ: the outcome of a run and the companion-material URL *)
Section ObjLoading.
Import Viewer Scene.

Lemma startsWith_cons a p b s :
  Js.startsWith (String a p) (String b s) = Ascii.eqb a b && Js.startsWith p s.
Proof. reflexivity. Qed.

Lemma includesStr_unfold pat s :
  includesStr pat s
  = Js.startsWith pat s
    || match s with EmptyString => false | String _ s' => includesStr pat s' end.
Proof. destruct s; reflexivity. Qed.

Lemma replaceFirst_unfold pat rep s :
  replaceFirst pat rep s
  = if Js.startsWith pat s then rep +:+ dropChars (String.length pat) s
    else match s with
         | EmptyString => EmptyString
         | String c s' => String c (replaceFirst pat rep s')
         end.
Proof. destruct s; reflexivity. Qed.

Lemma replaceFirst_absent pat rep s :
  includesStr pat s = false -> replaceFirst pat rep s = s.
Proof.
  induction s as [|c s IH]; rewrite includesStr_unfold, replaceFirst_unfold;
    intros [H1 H2]%orb_false_iff; rewrite H1; [reflexivity|].
  now rewrite IH.
Qed.

(** A pattern that begins with a character the string lacks is not in it. *)
Lemma includesStr_first_char_absent c p s :
  Js.includes c s = false -> includesStr (String c p) s = false.
Proof.
  induction s as [|d s IH]; [reflexivity|].
  simpl Js.includes. intros [Hd Hs]%orb_false_iff.
  rewrite includesStr_unfold, startsWith_cons, (IH Hs), Ascii.eqb_sym, Hd.
  reflexivity.
Qed.

Lemma includes_app c a b :
  Js.includes c (a +:+ b) = Js.includes c a || Js.includes c b.
Proof.
  induction a as [|d a IH]; [reflexivity|].
  change (String d a +:+ b) with (String d (a +:+ b)). simpl.
  now rewrite IH, orb_assoc.
Qed.

(** Printed numbers contain digits only. *)
Lemma pretty_N_go_avoids c n s :
  (forall d, Ascii.eqb (pretty_N_char d) c = false) ->
  Js.includes c (pretty_N_go n s) = Js.includes c s.
Proof.
  intros Hc. revert s. induction (N.lt_wf_0 n) as [n _ IH]. intros s.
  destruct (decide (0 < n)%N) as [Hn|Hn].
  - rewrite pretty_N_go_step by exact Hn.
    rewrite IH by (apply N.div_lt; lia). simpl. now rewrite Hc.
  - replace n with 0%N by lia. now rewrite pretty_N_go_0.
Qed.

Lemma pretty_N_avoids c (n : N) :
  (forall d, Ascii.eqb (pretty_N_char d) c = false) ->
  Js.includes c (pretty n) = false.
Proof.
  intros Hc. unfold pretty, pretty_N. case_decide.
  - pose proof (Hc 0%N) as H0. simpl in H0. simpl. now rewrite H0.
  - now rewrite pretty_N_go_avoids.
Qed.

Lemma pretty_N_no_dot (n : N) : Js.includes "." (pretty n) = false.
Proof.
  apply pretty_N_avoids. intros d. unfold pretty_N_char.
  repeat case_match; reflexivity.
Qed.

Lemma pretty_N_no_slash (n : N) : Js.includes "/" (pretty n) = false.
Proof.
  apply pretty_N_avoids. intros d. unfold pretty_N_char.
  repeat case_match; reflexivity.
Qed.

Lemma string_app_assoc (a b c : string) : (a +:+ b) +:+ c = a +:+ (b +:+ c).
Proof.
  induction a as [|x a IH]; [reflexivity|].
  change ((String x a +:+ b) +:+ c) with (String x ((a +:+ b) +:+ c)).
  now rewrite IH.
Qed.

(** An occurrence of .obj cannot begin in [x] and end in [b] when [b]
    begins with none of o, b, j. *)
Lemma startsWith_obj_app c x b :
  Js.startsWith ".obj" (String c x) = false ->
  Js.startsWith "obj" b = false -> Js.startsWith "bj" b = false ->
  Js.startsWith "j" b = false ->
  Js.startsWith ".obj" (String c x +:+ b) = false.
Proof.
  intros Hx H3 H2 H1.
  destruct x as [|c2 [|c3 [|c4 x]]].
  - change (String c "" +:+ b) with (String c b). rewrite startsWith_cons.
    now rewrite H3, andb_false_r.
  - change (String c (String c2 "") +:+ b) with (String c (String c2 b)).
    rewrite !startsWith_cons in *. rewrite H2.
    now rewrite !andb_false_r.
  - change (String c (String c2 (String c3 "")) +:+ b)
      with (String c (String c2 (String c3 b))).
    rewrite !startsWith_cons in *. rewrite H1.
    now rewrite !andb_false_r.
  - exact Hx.
Qed.

Lemma includesStr_obj_app a b :
  includesStr ".obj" a = false -> includesStr ".obj" b = false ->
  Js.startsWith "obj" b = false -> Js.startsWith "bj" b = false ->
  Js.startsWith "j" b = false ->
  includesStr ".obj" (a +:+ b) = false.
Proof.
  intros Ha Hb H3 H2 H1. induction a as [|c a IH]; [exact Hb|].
  rewrite includesStr_unfold in Ha. apply orb_false_iff in Ha as [Hc Ha].
  rewrite includesStr_unfold, startsWith_obj_app by assumption.
  change (String c a +:+ b) with (String c (a +:+ b)). cbn iota.
  now apply IH.
Qed.

(** When .obj does not occur in [q], the occurrence after [q] is the
    first one, and the one that is replaced. *)
Lemma mtlUrl_after_prefix q r :
  includesStr ".obj" q = false ->
  mtlUrl (q +:+ ".obj" +:+ r) = q +:+ ".mtl" +:+ r.
Proof.
  intros Hq. unfold mtlUrl. induction q as [|c q IH]; [reflexivity|].
  rewrite includesStr_unfold in Hq. apply orb_false_iff in Hq as [Hc Hq].
  rewrite replaceFirst_unfold, startsWith_obj_app; try reflexivity; [|exact Hc].
  change (String c q +:+ ".obj" +:+ r) with (String c (q +:+ ".obj" +:+ r)).
  cbn iota. now rewrite IH.
Qed.

Lemma includesStr_obj_blob s :
  includesStr ".obj" ("blob:" +:+ s) = includesStr ".obj" s.
Proof. reflexivity. Qed.

Lemma includesStr_obj_uuid (n : N) : includesStr ".obj" ("/" +:+ pretty n) = false.
Proof.
  apply includesStr_first_char_absent.
  change ("/" +:+ pretty n) with (String "/" (pretty n)). simpl.
  apply pretty_N_no_dot.
Qed.

(** X7. Whatever state an [OBJModel] is in (still loading, showing an
    earlier error, showing an earlier object), a run of the load effect
    whose loader reports an object ends with that object on display and no
    error; a run whose dynamic import fails ends with the loader error. *)
Theorem obj_load_outcomes (run : LoadRun) (st : OBJState) (object : Object3D) :
  (importOk run = true -> probe run <> MtlStalled -> parsed run = Some object ->
     renderOBJ (loadOBJ run st) = Primitive object
     /\ error (loadOBJ run st) = None)
  /\ (importOk run = false ->
      renderOBJ (loadOBJ run st) = ShowError "Failed to load OBJ loader"
      /\ obj (loadOBJ run st) = obj st).
Proof.
  unfold loadOBJ. split.
  - intros -> Hprobe ->. simpl.
    destruct (probe run); now split.
  - intros ->. now split.
Qed.

Lemma obj_load_outcomes_witness :
  let shown := Object true (One defaultMaterial) [] in
  renderOBJ (loadOBJ (mkRun true MtlNotFound (Some shown))
                     (mkOBJ None (Some "Failed to load OBJ model") false))
  = Primitive shown.
Proof.
  refine (proj1 (proj1 (obj_load_outcomes (mkRun true MtlNotFound
              (Some (Object true (One defaultMaterial) [])))
              (mkOBJ None (Some "Failed to load OBJ model") false)
              (Object true (One defaultMaterial) [])) _ _ _));
    [reflexivity|discriminate|reflexivity].
Defined.

(** X8. The companion-material URL is the model URL itself whenever the
    model URL does not contain the text .obj. For an object URL the hook
    issues this is decided by the page's origin: when the origin does not
    contain .obj the material probe fetches the OBJ again, and when it does,
    the first .obj of the origin is what gets replaced, so that the probe
    goes to another origin. *)
Theorem mtlUrl_on_object_urls (url o p r : string) (n : N) :
  (includesStr ".obj" url = false -> mtlUrl url = url)
  /\ (includesStr ".obj" o = false ->
      mtlUrl (ModelFile.blobUrl o n) = ModelFile.blobUrl o n)
  /\ (includesStr ".obj" p = false ->
      mtlUrl (ModelFile.blobUrl (p +:+ ".obj" +:+ r) n)
      = ModelFile.blobUrl (p +:+ ".mtl" +:+ r) n).
Proof.
  split; [apply replaceFirst_absent|]. split.
  - intros Ho. apply replaceFirst_absent. unfold ModelFile.blobUrl.
    rewrite includesStr_obj_blob.
    apply includesStr_obj_app; try reflexivity; [exact Ho|].
    apply includesStr_obj_uuid.
  - intros Hp. unfold ModelFile.blobUrl.
    rewrite !string_app_assoc.
    rewrite <- (string_app_assoc "blob:" p).
    rewrite mtlUrl_after_prefix by (now rewrite includesStr_obj_blob).
    now rewrite !string_app_assoc.
Qed.

Lemma mtlUrl_on_object_urls_witness :
  mtlUrl (ModelFile.blobUrl "https://m3d.example.org" 7)
  = "blob:https://m3d.example.org/7"
  /\ mtlUrl (ModelFile.blobUrl "https://www.objviewer.com" 7)
     = "blob:https://www.mtlviewer.com/7".
Proof.
  split.
  - refine (proj1 (proj2 (mtlUrl_on_object_urls "" "https://m3d.example.org" "" "" 7)) _).
    reflexivity.
  - refine (proj2 (proj2 (mtlUrl_on_object_urls "" "" "https://www" "viewer.com" 7)) _).
    reflexivity.
Defined.

(** Only the first occurrence is replaced, wherever it is. *)
Example mtlUrl_first_occurrence :
  mtlUrl "https://x/models/duck.obj?v=2" = "https://x/models/duck.mtl?v=2"
  /\ mtlUrl "https://x/my.objects/duck.obj" = "https://x/my.mtlects/duck.obj".
Proof. split; reflexivity. Qed.

End ObjLoading.

(** ** The model hook: what a load and a clear leave behind *)
Section HookFacts.
Import ModelFile.

Lemma storageKey_inj u u' : storageKey u = storageKey u' -> u = u'.
Proof. unfold storageKey. intros H. now injection H. Qed.

Lemma blobs_revokeIfBlob_other u br k :
  u <> Some k -> blobs (revokeIfBlob u br) !! k = blobs br !! k.
Proof.
  intros Hne. destruct u as [u|]; [|reflexivity]. unfold revokeIfBlob.
  destruct (Js.startsWith "blob:" u); [|reflexivity].
  simpl. apply lookup_delete_ne. congruence.
Qed.

(** The result of a load that passes both checks and throws nothing. *)
Lemma loadModel_loaded f st br :
  (size f <= MAX_SIZE)%N -> unsupported (detectExtension f) = false ->
  loadModel NoFault f st br
  = (mkState (Some (blobUrl (origin br) (issued br))) false None (Some (name f))
             (detectExtension f),
     mkBrowser (origin br) (issued br + 1)
               (<[blobUrl (origin br) (issued br) := f]>
                  (blobs (revokeIfBlob (modelUrl st) br)))
               (<[storageKey (blobUrl (origin br) (issued br)) := Js.show (detectExtension f)]>
                  (sessionStorage br))).
Proof.
  intros Hsz Hsup. unfold loadModel.
  destruct (N.ltb_spec MAX_SIZE (size f)) as [Hlt|_]; [lia|].
  rewrite Hsup. simpl.
  now rewrite issued_revokeIfBlob, origin_revokeIfBlob, sessionStorage_revokeIfBlob.
Qed.

Lemma unsupported_false_inv extension :
  unsupported extension = false ->
  exists e, extension = Some e /\ e ∈ supportedFormats.
Proof.
  unfold unsupported. intros [H1 H2]%orb_false_iff.
  destruct extension as [e|]; [|discriminate H1].
  exists e. split; [reflexivity|].
  apply negb_false_iff, bool_decide_eq_true in H2. exact H2.
Qed.

(** X9. Loading an accepted file and then clearing the model leaves the
    hook idle with no model, and neither the object URL of that load nor
    its session-storage entry survive. When no model was displayed before
    and the URL is new to the browser, the blob store and session storage
    are exactly what they were before the load. *)
Theorem load_then_clear (f : File) (st : State) (br : Browser) :
  (size f <= MAX_SIZE)%N -> unsupported (detectExtension f) = false ->
  let url := blobUrl (origin br) (issued br) in
  let loaded := loadModel NoFault f st br in
  let cleared := clearModel (fst loaded) (snd loaded) in
  fst cleared = mkState None false None None None
  /\ blobs (snd cleared) !! url = None
  /\ sessionStorage (snd cleared) !! storageKey url = None
  /\ (modelUrl st = None -> blobs br !! url = None ->
      sessionStorage br !! storageKey url = None ->
      snd cleared
      = mkBrowser (origin br) (issued br + 1) (blobs br) (sessionStorage br)).
Proof.
  intros Hsz Hsup url loaded cleared. subst cleared loaded url.
  rewrite (loadModel_loaded f st br Hsz Hsup).
  unfold clearModel. cbn [fst snd modelUrl].
  rewrite blobUrl_truthy, blobUrl_is_blob. cbn.
  split; [reflexivity|]. split; [apply lookup_delete_eq|].
  split; [apply lookup_delete_eq|].
  intros Hnone Hblob Hkey. rewrite Hnone. cbn [revokeIfBlob].
  unfold revokeObjectURL, removeItem. cbn [origin issued blobs sessionStorage].
  rewrite !delete_insert_eq, !delete_id by assumption. reflexivity.
Qed.

Lemma load_then_clear_witness :
  let st := mkState None false None None None in
  let br := mkBrowser "https://m3d.example.org" 0 ∅ ∅ in
  let loaded := loadModel NoFault (mkFile "a.stl" 5 "") st br in
  clearModel (fst loaded) (snd loaded) = (st, mkBrowser "https://m3d.example.org" 1 ∅ ∅).
Proof.
  pose proof (load_then_clear (mkFile "a.stl" 5 "") (mkState None false None None None)
                (mkBrowser "https://m3d.example.org" 0 ∅ ∅)) as H.
  cbv zeta in H. destruct H as (H1 & _ & _ & H4);
    [vm_compute; discriminate|reflexivity|].
  cbv zeta. rewrite (surjective_pairing (clearModel _ _)), H1, H4; reflexivity.
Defined.

Lemma loadModel_keeps_storage fault f st br k w :
  sessionStorage br !! k = Some w -> k <> storageKey (blobUrl (origin br) (issued br)) ->
  sessionStorage (snd (loadModel fault f st br)) !! k = Some w.
Proof.
  intros Hk Hne. unfold loadModel.
  destruct (MAX_SIZE <? size f)%N; [exact Hk|].
  destruct (unsupported (detectExtension f)); [exact Hk|].
  destruct fault; simpl;
    rewrite ?issued_revokeIfBlob, ?origin_revokeIfBlob, ?sessionStorage_revokeIfBlob.
  - now rewrite lookup_insert_ne by congruence.
  - exact Hk.
  - exact Hk.
Qed.

(** X10. [loadModel] never removes a session-storage entry. When it
    replaces a displayed model, the previous object URL is revoked but its
    [fileType_] entry stays behind; only [clearModel] removes one. *)
Theorem replacement_keeps_old_mapping (fault : Fault) (f : File) (st : State)
    (br : Browser) (n : N) (v : string) :
  modelUrl st = Some (blobUrl (origin br) n) -> (n < issued br)%N ->
  sessionStorage br !! storageKey (blobUrl (origin br) n) = Some v ->
  let after := loadModel fault f st br in
  sessionStorage (snd after) !! storageKey (blobUrl (origin br) n) = Some v
  /\ ((size f <= MAX_SIZE)%N -> unsupported (detectExtension f) = false ->
      blobs (snd after) !! blobUrl (origin br) n = None)
  /\ (forall k w, sessionStorage br !! k = Some w ->
        k <> storageKey (blobUrl (origin br) (issued br)) ->
        sessionStorage (snd after) !! k = Some w).
Proof.
  intros Hurl Hn Hv after. subst after.
  split; [|split].
  - apply loadModel_keeps_storage; [exact Hv|].
    intros E. apply storageKey_inj, blobUrl_inj in E. lia.
  - intros Hsz Hsup. now apply loadModel_revokes_previous.
  - intros k w. apply loadModel_keeps_storage.
Qed.

Lemma replacement_keeps_old_mapping_witness :
  let st := mkState (Some "blob:https://m3d.example.org/0") false None
                    (Some "a.obj") (Some "obj") in
  let br := mkBrowser "https://m3d.example.org" 1
                      {[ "blob:https://m3d.example.org/0" := mkFile "a.obj" 10 "" ]}
                      {[ "fileType_blob:https://m3d.example.org/0" := "obj" ]} in
  sessionStorage (snd (loadModel NoFault (mkFile "b.glb" 10 "") st br))
    !! "fileType_blob:https://m3d.example.org/0" = Some "obj".
Proof.
  refine (proj1 (replacement_keeps_old_mapping NoFault (mkFile "b.glb" 10 "")
    (mkState (Some "blob:https://m3d.example.org/0") false None (Some "a.obj") (Some "obj"))
    (mkBrowser "https://m3d.example.org" 1
                   {[ "blob:https://m3d.example.org/0" := mkFile "a.obj" 10 "" ]}
                   {[ "fileType_blob:https://m3d.example.org/0" := "obj" ]})
    0 "obj" _ _ _)); reflexivity.
Defined.

(** X11. When a browser call inside the [try] block throws, the hook
    reports the error and keeps pointing at the previous model, although
    the previous object URL has already been revoked. *)
Theorem failed_load_keeps_revoked_url (fault : Fault) (f : File) (st : State)
    (br : Browser) (n : N) :
  fault <> NoFault ->
  (size f <= MAX_SIZE)%N -> unsupported (detectExtension f) = false ->
  modelUrl st = Some (blobUrl (origin br) n) -> (n < issued br)%N ->
  let after := loadModel fault f st br in
  modelUrl (fst after) = Some (blobUrl (origin br) n)
  /\ fileName (fst after) = fileName st
  /\ fileType (fst after) = fileType st
  /\ error (fst after) = Some "Error loading model file"
  /\ isLoading (fst after) = false
  /\ blobs (snd after) !! blobUrl (origin br) n = None.
Proof.
  intros Hfault Hsz Hsup Hurl Hn after. subst after.
  split; [|split; [|split; [|split; [|split]]]];
    try (now apply loadModel_revokes_previous);
    unfold loadModel;
    (destruct (N.ltb_spec MAX_SIZE (size f)) as [Hlt|_]; [lia|]);
    rewrite Hsup; destruct fault; try (now contradiction Hfault);
    simpl; try reflexivity; exact Hurl.
Qed.

Lemma failed_load_keeps_revoked_url_witness :
  let st := mkState (Some "blob:https://m3d.example.org/0") false None
                    (Some "a.obj") (Some "obj") in
  let br := mkBrowser "https://m3d.example.org" 1
                      {[ "blob:https://m3d.example.org/0" := mkFile "a.obj" 10 "" ]}
                      {[ "fileType_blob:https://m3d.example.org/0" := "obj" ]} in
  let after := loadModel SetItemThrows (mkFile "b.glb" 10 "") st br in
  modelUrl (fst after) = Some "blob:https://m3d.example.org/0"
  /\ blobs (snd after) !! "blob:https://m3d.example.org/0" = None.
Proof.
  pose proof (failed_load_keeps_revoked_url SetItemThrows (mkFile "b.glb" 10 "")
    (mkState (Some "blob:https://m3d.example.org/0") false None (Some "a.obj") (Some "obj"))
    (mkBrowser "https://m3d.example.org" 1
                   {[ "blob:https://m3d.example.org/0" := mkFile "a.obj" 10 "" ]}
                   {[ "fileType_blob:https://m3d.example.org/0" := "obj" ]})
    0) as H.
  cbv zeta in H. destruct H as (H1 & _ & _ & _ & _ & H6);
    [discriminate|vm_compute; discriminate|reflexivity|reflexivity|reflexivity|].
  split; [exact H1|exact H6].
Defined.

(** X12. After [loadModel] the error cell is empty exactly when the file
    passed the size and format checks and no browser call threw. In that
    case the model is the new object URL, the file name is the file's and
    the type is one of the five supported formats; in every other case the
    model, its name and its type are as before. The loading flag is off
    whenever it was off before. *)
Theorem loadModel_error_iff_not_loaded (fault : Fault) (f : File) (st : State)
    (br : Browser) :
  let after := fst (loadModel fault f st br) in
  (error after = None <->
     (size f <= MAX_SIZE)%N /\ unsupported (detectExtension f) = false
     /\ fault = NoFault)
  /\ (error after = None ->
      modelUrl after = Some (blobUrl (origin br) (issued br))
      /\ fileName after = Some (name f)
      /\ exists e, e ∈ supportedFormats /\ fileType after = Some e)
  /\ (error after <> None ->
      modelUrl after = modelUrl st /\ fileName after = fileName st
      /\ fileType after = fileType st)
  /\ (isLoading st = false -> isLoading after = false).
Proof.
  intros after. subst after. unfold loadModel.
  destruct (N.ltb_spec MAX_SIZE (size f)) as [Hlt|Hle].
  { simpl. repeat split; try discriminate; try lia; auto. }
  destruct (unsupported (detectExtension f)) eqn:Hsup.
  { simpl. repeat split; try discriminate; auto. intros (_ & ? & _); discriminate. }
  destruct (unsupported_false_inv _ Hsup) as (e & He & Hin).
  destruct fault; simpl.
  - rewrite issued_revokeIfBlob, origin_revokeIfBlob.
    repeat split; auto; try congruence. eauto.
  - repeat split; try discriminate; auto. intros (_ & _ & ?); discriminate.
  - repeat split; try discriminate; auto. intros (_ & _ & ?); discriminate.
Qed.

End HookFacts.

(** ** From the hook to the viewer: which element a URL is rendered as *)
Section Dispatch.
Import ModelFile.

Lemma string_app_nil_r a : a +:+ "" = a.
Proof.
  induction a as [|x a IH]; [reflexivity|].
  change (String x (a +:+ "") = String x a). now rewrite IH.
Qed.

Lemma hd_split_before sep a rest :
  Js.includes sep a = false ->
  rest = "" \/ (exists q, rest = String sep q) ->
  hd "" (Js.split sep (a +:+ rest)) = a.
Proof.
  intros Ha [-> | [q ->]].
  - now rewrite string_app_nil_r, split_no_sep.
  - now rewrite split_app, (split_no_sep _ _ Ha).
Qed.

(** The last segment of an object URL is its UUID. *)
Lemma blobUrl_last_part o n :
  last (Js.split "/" (blobUrl o n)) = Some (pretty n).
Proof.
  unfold blobUrl.
  replace ("blob:" +:+ o +:+ "/" +:+ pretty n)
    with (("blob:" +:+ o) +:+ String "/" (pretty n))
    by (now rewrite string_app_assoc).
  apply (pop_split_suffix "/"), pretty_N_no_slash.
Qed.

(** The entry of the last load is gone after [clearModel]. *)
Lemma cleared_storage_lookup f st br :
  (size f <= MAX_SIZE)%N -> unsupported (detectExtension f) = false ->
  let loaded := loadModel NoFault f st br in
  sessionStorage (snd (clearModel (fst loaded) (snd loaded)))
    !! storageKey (blobUrl (origin br) (issued br)) = None.
Proof.
  intros Hsz Hsup loaded. subst loaded.
  rewrite (loadModel_loaded f st br Hsz Hsup).
  unfold clearModel. cbn [fst snd modelUrl].
  rewrite blobUrl_truthy, blobUrl_is_blob. cbn. apply lookup_delete_eq.
Qed.

(** X13. Every file [loadModel] accepts is rendered by the viewer as a
    model or as the placeholder of its format, never as the
    unsupported-format error, and the viewer does not throw: it reads back
    the extension the hook stored, and each of the five supported formats
    has a branch. *)
Theorem accepted_file_is_dispatched (URL_search : string -> option string)
    (f : File) (st : State) (br : Browser) (mode : string) :
  (size f <= MAX_SIZE)%N -> unsupported (detectExtension f) = false ->
  let url := blobUrl (origin br) (issued br) in
  let storage := sessionStorage (snd (loadModel NoFault f st br)) in
  exists e,
    detectExtension f = Some e
    /\ Viewer.fileExtension URL_search storage url = Some e
    /\ (e = "glb" \/ e = "gltf" ->
        Viewer.Model URL_search storage url mode = Some (Viewer.GLTFModel url mode))
    /\ (e = "obj" ->
        Viewer.Model URL_search storage url mode = Some (Viewer.OBJModel url mode))
    /\ (e = "stl" ->
        Viewer.Model URL_search storage url mode
        = Some (Viewer.PlaceholderModel "STL format support coming soon"))
    /\ (e = "fbx" ->
        Viewer.Model URL_search storage url mode
        = Some (Viewer.PlaceholderModel "FBX format support coming soon"))
    /\ (forall message,
          Viewer.Model URL_search storage url mode
          <> Some (Viewer.ErrorMessage message))
    /\ Viewer.Model URL_search storage url mode <> None.
Proof.
  intros Hsz Hsup url storage.
  destruct (unsupported_false_inv _ Hsup) as (e & He & Hin).
  assert (Hext : Viewer.fileExtension URL_search storage url = Some e).
  { apply fileExtension_after_load; [exact Hsz|exact He|].
    now rewrite <- He. }
  exists e. split; [exact He|]. split; [exact Hext|].
  unfold Viewer.Model. rewrite Hext.
  apply supported_cases in Hin.
  destruct Hin as [->|[->|[->|[->| ->]]]];
    repeat split; try reflexivity; try discriminate;
    try (intros [H|H]; discriminate H).
Qed.

Lemma accepted_file_is_dispatched_witness :
  Viewer.Model Samples.URL_search
    (sessionStorage (snd (loadModel NoFault (mkFile "part.STL" 10 "")
                                    (mkState None false None None None)
                                    (mkBrowser "https://m3d.example.org" 0 ∅ ∅))))
    "blob:https://m3d.example.org/0" "solid"
  = Some (Viewer.PlaceholderModel "STL format support coming soon").
Proof.
  destruct (accepted_file_is_dispatched Samples.URL_search (mkFile "part.STL" 10 "")
              (mkState None false None None None)
              (mkBrowser "https://m3d.example.org" 0 ∅ ∅) "solid")
    as (e & He & _ & _ & _ & Hstl & _);
    [vm_compute; discriminate|reflexivity|].
  apply Hstl. vm_compute in He. congruence.
Defined.

(** X14. For a URL that is not a [blob:] URL and has no stored type, the
    extension is the lower-cased text after the last dot of the part before
    the query string: a URL of the form p.suf or p.suf?query, where p holds
    no question mark and suf no dot and no question mark, has extension
    suf in lower case. The URL parser is not consulted. *)
Theorem plain_url_extension (URL_search : string -> option string)
    (storage : gmap string string) (p suf rest : string) :
  let url := (p +:+ String "." suf) +:+ rest in
  Js.truthy_opt (storage !! storageKey url) = false ->
  Js.startsWith "blob:" url = false ->
  Js.includes "?" p = false -> Js.includes "?" suf = false ->
  Js.includes "." suf = false ->
  rest = "" \/ (exists q, rest = String "?" q) ->
  Viewer.fileExtension URL_search storage url = Some (Js.toLowerCase suf).
Proof.
  intros url Hstored Hblob Hp Hsuf Hdot Hrest. subst url.
  unfold Viewer.fileExtension. rewrite Hstored, andb_false_r, Hblob.
  rewrite hd_split_before; [|now rewrite includes_app; simpl; rewrite Hp, Hsuf|exact Hrest].
  unfold Viewer.suffixOf. now rewrite pop_split_suffix.
Qed.

Lemma plain_url_extension_witness :
  Viewer.fileExtension (fun _ => None) ∅ "https://x/y/model.OBJ?v=2" = Some "obj".
Proof.
  apply (plain_url_extension (fun _ => None) ∅ "https://x/y/model" "OBJ" "?v=2");
    try reflexivity. right. now exists "v=2".
Defined.

(** Without a stored type, a [blob:] URL whose last segment has no dot is
    handed to the URL parser, and the extension is read off the query. *)
Lemma fileExtension_blob_search URL_search (storage : gmap string string)
    (url : string) :
  Js.truthy_opt (storage !! storageKey url) = false ->
  Js.startsWith "blob:" url = true ->
  Js.includes "." (default "" (last (Js.split "/" url))) = false ->
  Viewer.fileExtension URL_search storage url
  = match URL_search url with
    | None => None
    | Some searchParams =>
        Some (if Js.includes "." searchParams
              then Viewer.suffixOf searchParams else "")
    end.
Proof.
  intros Hstored Hblob Hdot. unfold Viewer.fileExtension.
  rewrite Hstored, andb_false_r, Hblob, Hdot.
  destruct (URL_search url) as [[|c q]|]; reflexivity.
Qed.

(** X15. A [blob:] URL whose last segment contains no dot and that has no
    session-storage entry is handed to the platform's URL parser. If the
    parser refuses the string, [Model] throws; if the query it returns
    contains no dot, the viewer shows the unsupported-format error with the
    format unknown; otherwise the text after the last dot of the query is
    dispatched as the extension. *)
Theorem blob_url_needs_mapping (URL_search : string -> option string)
    (storage : gmap string string) (url mode : string) :
  Js.truthy_opt (storage !! storageKey url) = false ->
  Js.startsWith "blob:" url = true ->
  Js.includes "." (default "" (last (Js.split "/" url))) = false ->
  (URL_search url = None -> Viewer.Model URL_search storage url mode = None)
  /\ (forall searchParams,
        URL_search url = Some searchParams ->
        Js.includes "." searchParams = false ->
        Viewer.Model URL_search storage url mode
        = Some (Viewer.ErrorMessage "Unsupported file format: unknown"))
  /\ (forall searchParams,
        URL_search url = Some searchParams ->
        Js.includes "." searchParams = true ->
        Viewer.Model URL_search storage url mode
        = Some (Viewer.dispatch (Viewer.suffixOf searchParams) url mode)).
Proof.
  intros Hstored Hblob Hdot. unfold Viewer.Model.
  rewrite (fileExtension_blob_search URL_search storage url Hstored Hblob Hdot).
  split; [intros ->; reflexivity|].
  split; intros q -> ->; reflexivity.
Qed.

Lemma blob_url_needs_mapping_witness :
  Viewer.Model Samples.URL_search ∅ "blob://[" "textured" = None
  /\ Viewer.Model Samples.URL_search ∅ "blob:https://m3d.example.org/0b7d3c1e" "textured"
     = Some (Viewer.ErrorMessage "Unsupported file format: unknown")
  /\ Viewer.Model Samples.URL_search ∅
                  "blob:https://m3d.example.org/0b7d3c1e?duck.GLB#/top" "textured"
     = Some (Viewer.GLTFModel "blob:https://m3d.example.org/0b7d3c1e?duck.GLB#/top"
                              "textured").
Proof.
  split; [|split].
  - refine (proj1 (blob_url_needs_mapping Samples.URL_search ∅ "blob://[" "textured"
                     _ _ _) _); reflexivity.
  - refine (proj1 (proj2 (blob_url_needs_mapping Samples.URL_search ∅
                     "blob:https://m3d.example.org/0b7d3c1e" "textured" _ _ _))
                  "" _ _); reflexivity.
  - refine (proj2 (proj2 (blob_url_needs_mapping Samples.URL_search ∅
                     "blob:https://m3d.example.org/0b7d3c1e?duck.GLB#/top" "textured"
                     _ _ _))
                  "?duck.GLB" _ _); reflexivity.
Defined.

(** X16. After [clearModel] the object URL of the cleared model no longer
    dispatches. Before the clear the viewer renders it as a model or a
    placeholder. After the clear the stored type is gone and the UUID has
    no dot, so the viewer asks the URL parser: given that the parser
    accepts the object URL and finds no query in it, the viewer shows the
    unsupported-format error with the format unknown, whatever the file
    was and whatever the page's origin is. *)
Theorem cleared_url_is_not_dispatched (URL_search : string -> option string)
    (f : File) (st : State) (br : Browser) (mode : string) :
  (size f <= MAX_SIZE)%N -> unsupported (detectExtension f) = false ->
  URL_search (blobUrl (origin br) (issued br)) = Some "" ->
  let loaded := loadModel NoFault f st br in
  let cleared := clearModel (fst loaded) (snd loaded) in
  (exists element,
      Viewer.Model URL_search (sessionStorage (snd loaded))
                   (blobUrl (origin br) (issued br)) mode = Some element
      /\ element <> Viewer.ErrorMessage "Unsupported file format: unknown")
  /\ Viewer.Model URL_search (sessionStorage (snd cleared))
                  (blobUrl (origin br) (issued br)) mode
     = Some (Viewer.ErrorMessage "Unsupported file format: unknown").
Proof.
  intros Hsz Hsup Hparse loaded cleared. split.
  - subst loaded.
    destruct (unsupported_false_inv _ Hsup) as (e & He & Hin).
    unfold Viewer.Model.
    rewrite (fileExtension_after_load URL_search f st br e Hsz He)
      by now rewrite <- He.
    eexists. split; [reflexivity|].
    apply supported_cases in Hin.
    destruct Hin as [->|[->|[->|[->| ->]]]]; discriminate.
  - unfold Viewer.Model. rewrite fileExtension_blob_search, Hparse; [reflexivity| | |].
    + subst cleared loaded. now rewrite cleared_storage_lookup.
    + apply blobUrl_is_blob.
    + rewrite blobUrl_last_part. apply pretty_N_no_dot.
Qed.

Lemma cleared_url_is_not_dispatched_witness :
  let loaded := loadModel NoFault (mkFile "duck.glb" 10 "")
                          (mkState None false None None None)
                          (mkBrowser "https://m3d.example.org" 0 ∅ ∅) in
  Viewer.Model Samples.URL_search
               (sessionStorage (snd (clearModel (fst loaded) (snd loaded))))
               "blob:https://m3d.example.org/0" "textured"
  = Some (Viewer.ErrorMessage "Unsupported file format: unknown").
Proof.
  refine (proj2 (cleared_url_is_not_dispatched Samples.URL_search
                   (mkFile "duck.glb" 10 "")
                   (mkState None false None None None)
                   (mkBrowser "https://m3d.example.org" 0 ∅ ∅) "textured" _ _ _));
    [vm_compute; discriminate|reflexivity|reflexivity].
Defined.

End Dispatch.

(** ** The annotation manager: lookup, removal, update *)
Section AnnotationLaws.
Import Annotations.
Local Open Scope list_scope.

Lemma get_cons i a l :
  getAnnotation i (a :: l) = if String.eqb (id a) i then Some a else getAnnotation i l.
Proof. reflexivity. Qed.

Lemma get_app i l1 l2 :
  getAnnotation i (l1 ++ l2)
  = match getAnnotation i l1 with
    | Some a => Some a
    | None => getAnnotation i l2
    end.
Proof.
  induction l1 as [|a l1 IH]; [reflexivity|].
  rewrite <- app_comm_cons, !get_cons. now destruct (String.eqb (id a) i).
Qed.

Lemma get_none_iff i l :
  getAnnotation i l = None <-> Forall (fun b => id b <> i) l.
Proof.
  induction l as [|a l IH]; [split; [constructor|reflexivity]|].
  rewrite get_cons, Forall_cons.
  destruct (String.eqb_spec (id a) i) as [E|E]; [split; [discriminate|tauto]|].
  rewrite IH. tauto.
Qed.

Lemma get_decompose i l a :
  getAnnotation i l = Some a <->
  exists l1 l2, l = l1 ++ a :: l2 /\ id a = i /\ Forall (fun b => id b <> i) l1.
Proof.
  split.
  - induction l as [|b l IH]; [discriminate|]. rewrite get_cons.
    destruct (String.eqb_spec (id b) i) as [E|E].
    + intros [= ->]. exists [], l. now repeat split.
    + intros (l1 & l2 & -> & Hi & Hl1)%IH.
      exists (b :: l1), l2. repeat split; [exact Hi|now constructor].
  - intros (l1 & l2 & -> & Hi & Hl1). rewrite get_app.
    apply get_none_iff in Hl1. rewrite Hl1, get_cons.
    now rewrite (proj2 (String.eqb_eq _ _) Hi).
Qed.

(** X17. [getAnnotation] returns the first record that carries the id:
    everything before it in the collection has another id; it returns
    nothing exactly when no record carries the id. *)
Theorem getAnnotation_finds_first (i : string) (l : list Annotation) :
  (forall a, getAnnotation i l = Some a <->
     exists l1 l2, l = l1 ++ a :: l2 /\ id a = i /\ Forall (fun b => id b <> i) l1)
  /\ (getAnnotation i l = None <-> forall b, b ∈ l -> id b <> i).
Proof.
  split; [intros a; apply get_decompose|].
  rewrite get_none_iff. apply Forall_forall.
Qed.

(** X18. Looking up the id of a record that was just added returns that
    record when the id was new to the collection, and the older record with
    the same id when there was one: a colliding record cannot be reached
    by its id. *)
Theorem get_after_add (now draw : N) (d : AnnotationData) (l : list Annotation) :
  let added := addAnnotation now draw d l in
  getAnnotation (id (fst added)) (snd added)
  = match getAnnotation (makeId now draw) l with
    | Some older => Some older
    | None => Some (fst added)
    end
  /\ ((forall b, b ∈ l -> id b <> makeId now draw) ->
      getAnnotation (id (fst added)) (snd added) = Some (fst added))
  /\ (forall i, i <> makeId now draw ->
        getAnnotation i (snd added) = getAnnotation i l).
Proof.
  intros added. subst added. unfold addAnnotation. cbn [fst snd id].
  rewrite get_app, get_cons. cbn [id]. rewrite String.eqb_refl.
  split; [reflexivity|]. split.
  - intros Hfresh. apply Forall_forall, get_none_iff in Hfresh. now rewrite Hfresh.
  - intros i Hne. rewrite get_app, get_cons. cbn [id].
    rewrite (proj2 (String.eqb_neq _ _)) by congruence.
    now destruct (getAnnotation i l).
Qed.

Lemma get_after_add_witness :
  let d := mkData (Three.vec3 F64.zero F64.zero F64.zero) "t" "d" None in
  getAnnotation "annotation-5-7" (snd (addAnnotation 5 7 d []))
  = Some (fst (addAnnotation 5 7 d [])).
Proof.
  refine (proj1 (proj2 (get_after_add 5 7
            (mkData (Three.vec3 F64.zero F64.zero F64.zero) "t" "d" None) [])) _).
  intros b Hb. now apply elem_of_nil in Hb.
Defined.

Lemma get_removeAnnotation_other i j l :
  j <> i -> getAnnotation j (removeAnnotation i l) = getAnnotation j l.
Proof.
  intros Hne. unfold removeAnnotation. induction l as [|a l IH]; [reflexivity|].
  destruct (decide (id a = i)) as [E|E].
  - rewrite filter_cons_False by tauto. rewrite get_cons, IH.
    now rewrite (proj2 (String.eqb_neq _ _)) by congruence.
  - rewrite filter_cons_True by exact E. now rewrite !get_cons, IH.
Qed.

(** X19. After [removeAnnotation] the id can no longer be looked up, and
    the lookup of every other id gives what it gave before; removing the
    same id again changes nothing, and two removals give the same
    collection in either order. *)
Theorem removeAnnotation_laws (i j : string) (l : list Annotation) :
  getAnnotation i (removeAnnotation i l) = None
  /\ (j <> i -> getAnnotation j (removeAnnotation i l) = getAnnotation j l)
  /\ removeAnnotation i (removeAnnotation i l) = removeAnnotation i l
  /\ removeAnnotation i (removeAnnotation j l) = removeAnnotation j (removeAnnotation i l).
Proof.
  split; [|split; [|split]].
  - apply get_none_iff, Forall_forall. intros b Hb.
    now apply elem_of_removeAnnotation in Hb.
  - apply get_removeAnnotation_other.
  - apply removeAnnotation_absent. intros b Hb.
    now apply elem_of_removeAnnotation in Hb.
  - unfold removeAnnotation. rewrite !list_filter_filter.
    apply list_filter_iff. tauto.
Qed.

Lemma findIndex_none i l :
  getAnnotation i l = None -> findIndex i l = None.
Proof.
  induction l as [|a l IH]; [reflexivity|]. rewrite get_cons. simpl.
  destruct (String.eqb (id a) i); [discriminate|]. intros H. now rewrite IH.
Qed.

Lemma findIndex_found i l1 a l2 :
  id a = i -> Forall (fun b => id b <> i) l1 ->
  findIndex i (l1 ++ a :: l2) = Some (List.length l1).
Proof.
  intros Hi. induction 1 as [|b l1 Hb _ IH]; simpl.
  - now rewrite (proj2 (String.eqb_eq _ _) Hi).
  - now rewrite (proj2 (String.eqb_neq _ _) Hb), IH.
Qed.

(** An update replaces the first record with the id, in place. *)
Lemma updateAnnotation_found i data l1 a l2 :
  id a = i -> Forall (fun b => id b <> i) l1 ->
  updateAnnotation i data (l1 ++ a :: l2)
  = (Some (merge a data), l1 ++ merge a data :: l2).
Proof.
  intros Hi Hl1. unfold updateAnnotation.
  rewrite (findIndex_found i l1 a l2 Hi Hl1).
  rewrite list_lookup_middle by reflexivity.
  replace (List.length l1) with (List.length l1 + 0)%nat by lia.
  now rewrite insert_app_r.
Qed.

Lemma updateAnnotation_absent i data l :
  getAnnotation i l = None -> updateAnnotation i data l = (None, l).
Proof. intros H. unfold updateAnnotation. now rewrite findIndex_none. Qed.

Lemma ids_after_update i data l :
  id <$> snd (updateAnnotation i data l) = id <$> l.
Proof.
  destruct (getAnnotation i l) as [a|] eqn:Hget.
  - apply get_decompose in Hget as (l1 & l2 & -> & Hi & Hl1).
    rewrite (updateAnnotation_found i data l1 a l2 Hi Hl1). cbn [snd].
    now rewrite !fmap_app, !fmap_cons.
  - now rewrite (updateAnnotation_absent i data l Hget).
Qed.

(** X20. [updateAnnotation] merges the given fields into the first record
    with the id and returns it; the ids of the collection, their order and
    every other record stay as they are, a later lookup of the id returns
    the merged record and the lookup of any other id is unchanged. For an
    id that no record carries it returns nothing and the collection is
    unchanged. *)
Theorem updateAnnotation_laws (i : string) (data : AnnotationPatch)
    (l : list Annotation) :
  let updated := updateAnnotation i data l in
  fst updated = (fun a => merge a data) <$> getAnnotation i l
  /\ id <$> snd updated = id <$> l
  /\ getAnnotation i (snd updated) = fst updated
  /\ (forall j, j <> i -> getAnnotation j (snd updated) = getAnnotation j l)
  /\ (forall a, getAnnotation i l = Some a ->
      exists l1 l2, l = l1 ++ a :: l2 /\ snd updated = l1 ++ merge a data :: l2)
  /\ (getAnnotation i l = None -> snd updated = l).
Proof.
  intros updated. subst updated.
  destruct (getAnnotation i l) as [a|] eqn:Hget.
  - apply get_decompose in Hget as (l1 & l2 & -> & Hi & Hl1).
    rewrite (updateAnnotation_found i data l1 a l2 Hi Hl1). cbn [fst snd].
    assert (Hid : id (merge a data) = i) by exact Hi.
    split; [reflexivity|]. split; [now rewrite !fmap_app, !fmap_cons|].
    split; [apply get_decompose; exists l1, l2; now repeat split|].
    split.
    { intros j Hne. rewrite !get_app, !get_cons. cbn [merge id].
      rewrite Hi, (proj2 (String.eqb_neq i j)) by congruence. reflexivity. }
    split; [|discriminate].
    intros a' [= <-]. exists l1, l2. split; [|reflexivity].
    reflexivity.
  - rewrite (updateAnnotation_absent i data l Hget). cbn [fst snd].
    repeat split; try reflexivity; try exact Hget; discriminate.
Qed.

Lemma fmap_id_removeAnnotation_sublist i l :
  (id <$> removeAnnotation i l) `sublist_of` (id <$> l).
Proof. apply fmap_sublist, removeAnnotation_sublist. Qed.

(** X21. If no two annotations share an id, this is still so after any
    removal and any update, and after an add exactly when the generated id
    is carried by no record yet. *)
Theorem unique_ids_preserved (l : list Annotation) :
  NoDup (id <$> l) ->
  (forall i, NoDup (id <$> removeAnnotation i l))
  /\ (forall i data, NoDup (id <$> snd (updateAnnotation i data l)))
  /\ (forall now draw d,
        NoDup (id <$> snd (addAnnotation now draw d l))
        <-> forall b, b ∈ l -> id b <> makeId now draw).
Proof.
  intros Hnd. split; [|split].
  - intros i. eapply sublist_NoDup; [exact Hnd|apply fmap_id_removeAnnotation_sublist].
  - intros i data.
    now rewrite ids_after_update.
  - intros now draw d. unfold addAnnotation. cbn [snd].
    rewrite fmap_app, NoDup_app. cbn [fmap list_fmap id].
    split.
    + intros (_ & Hdisj & _) b Hb Heq.
      apply (Hdisj (id b)); [now apply list_elem_of_fmap_2|].
      rewrite Heq. now left.
    + intros Hfresh. split; [exact Hnd|]. split; [|apply NoDup_singleton].
      intros x [b [-> Hb]]%list_elem_of_fmap Hx.
      apply list_elem_of_singleton in Hx. now apply (Hfresh b).
Qed.

Lemma unique_ids_preserved_witness :
  let d := mkData (Three.vec3 F64.zero F64.zero F64.zero) "t" "d" None in
  let l := snd (addAnnotation 5 7 d []) in
  NoDup (id <$> removeAnnotation "annotation-5-7" l).
Proof.
  refine (proj1 (unique_ids_preserved
    (snd (addAnnotation 5 7 (mkData (Three.vec3 F64.zero F64.zero F64.zero) "t" "d" None) []))
    _) "annotation-5-7").
  apply NoDup_singleton.
Defined.

End AnnotationLaws.

(** ** The annotations panel: row previews and the edit dialog *)
Section PanelFacts.
Import Annotations Panel.
Local Open Scope list_scope.

Lemma length_takeChars n s :
  String.length (takeChars n s) = Nat.min n (String.length s).
Proof.
  revert s. induction n as [|n IH]; intros [|c s]; simpl; try reflexivity.
  now rewrite IH.
Qed.

Lemma string_length_app a b :
  String.length (a +:+ b) = (String.length a + String.length b)%nat.
Proof.
  induction a as [|c a IH]; [reflexivity|].
  change (S (String.length (a +:+ b)) = S (String.length a + String.length b)).
  now rewrite IH.
Qed.

Lemma takeChars_dropChars n s : takeChars n s +:+ Scene.dropChars n s = s.
Proof.
  revert s. induction n as [|n IH]; intros [|c s]; try reflexivity.
  change (String c (takeChars n s +:+ Scene.dropChars n s) = String c s).
  now rewrite IH.
Qed.

(** X22. The preview of a description is never longer than 53 characters:
    a description of at most 50 characters is shown as it is, a longer one
    as its first 50 characters followed by three dots. *)
Theorem preview_length (description : string) :
  (String.length (preview description) <= 53)%nat
  /\ ((String.length description <= 50)%nat -> preview description = description)
  /\ ((50 < String.length description)%nat ->
      String.length (preview description) = 53%nat
      /\ exists rest, description = takeChars 50 description +:+ rest
                      /\ preview description = takeChars 50 description +:+ "...").
Proof.
  unfold preview.
  destruct (Nat.ltb_spec 50 (String.length description)) as [Hlong|Hshort].
  - assert (Hlen : String.length (takeChars 50 description +:+ "...") = 53%nat).
    { rewrite string_length_app, length_takeChars. simpl String.length. lia. }
    split; [lia|]. split; [lia|]. intros _. split; [exact Hlen|].
    exists (Scene.dropChars 50 description).
    now rewrite takeChars_dropChars.
  - split; [lia|]. split; [reflexivity|lia].
Qed.

Lemma preview_length_witness :
  preview "A scratch on the left wing, about two centimetres long, near the hinge"
  = "A scratch on the left wing, about two centimetres ...".
Proof.
  destruct (preview_length
    "A scratch on the left wing, about two centimetres long, near the hinge")
    as (_ & _ & H).
  destruct H as (_ & rest & _ & ->); [vm_compute; lia|]. reflexivity.
Defined.

(** The record with its colour replaced by the dialog's colour. *)
Lemma merge_dialog_fields a :
  merge a (mkPatch None (Some (title a)) (Some (description a))
                   (Some (Some (colorOrDefault (color a)))))
  = mkAnnotation (id a) (position a) (title a) (description a)
                 (Some (colorOrDefault (color a))).
Proof. reflexivity. Qed.

(** X23. Opening the edit dialog on a record and saving without a change
    closes the dialog and updates the record under its own id with its own
    title and description; the position is kept and the colour becomes the
    dialog's colour, which is the record's colour or #3f51b5 when it had
    none. A record that had a colour is unchanged, and so is the whole
    collection. *)
Theorem edit_then_save_unchanged (a : Annotation) (l : list Annotation) (d0 : Dialog) :
  getAnnotation (id a) l = Some a ->
  let saved := handleSaveEdit (handleEditClick a d0) in
  let patch := mkPatch None (Some (title a)) (Some (description a))
                       (Some (Some (colorOrDefault (color a)))) in
  fst saved = Some (id a, patch)
  /\ editDialogOpen (snd saved) = false
  /\ fst (updateAnnotation (id a) patch l)
     = Some (mkAnnotation (id a) (position a) (title a) (description a)
                          (Some (colorOrDefault (color a))))
  /\ (Js.truthy_opt (color a) = true -> snd (updateAnnotation (id a) patch l) = l).
Proof.
  intros Hget saved patch. subst saved. split; [reflexivity|]. split; [reflexivity|].
  apply get_decompose in Hget as (l1 & l2 & -> & _ & Hl1).
  rewrite (updateAnnotation_found (id a) patch l1 a l2 eq_refl Hl1). cbn [fst snd].
  split; [reflexivity|].
  intros Hcolor. f_equal. f_equal. subst patch. rewrite merge_dialog_fields.
  destruct a as [i p t d [c|]]; simpl in *; [|discriminate Hcolor].
  now rewrite Hcolor.
Qed.

Lemma edit_then_save_unchanged_witness :
  let a := mkAnnotation "annotation-5-7" (Three.vec3 F64.zero F64.zero F64.zero)
                        "Hinge" "Check the hinge" (Some "#ff0000") in
  snd (updateAnnotation "annotation-5-7"
         (mkPatch None (Some "Hinge") (Some "Check the hinge") (Some (Some "#ff0000")))
         [a]) = [a].
Proof.
  refine (proj2 (proj2 (proj2 (edit_then_save_unchanged
    (mkAnnotation "annotation-5-7" (Three.vec3 F64.zero F64.zero F64.zero)
                  "Hinge" "Check the hinge" (Some "#ff0000"))
    [mkAnnotation "annotation-5-7" (Three.vec3 F64.zero F64.zero F64.zero)
                  "Hinge" "Check the hinge" (Some "#ff0000")]
    initialDialog _))) _); reflexivity.
Defined.

End PanelFacts.

(** ** The stored theme preference *)
Section ThemeFacts.
Import Theme.

(** X24. With local storage available, the mode chosen by a toggle is the
    mode the provider starts with the next time, whatever the system
    preference is; toggling twice gives back the mode and stores it. A
    stored value other than the text true means light mode, and without a
    stored value the system preference decides. *)
Theorem theme_preference_persists (darkMode : bool) (w : Window) :
  hasLocalStorage w = true ->
  let once := toggleDarkMode darkMode w in
  let twice := toggleDarkMode (fst once) (snd once) in
  fst once = negb darkMode
  /\ getInitialMode (snd once) = negb darkMode
  /\ fst twice = darkMode
  /\ getInitialMode (snd twice) = darkMode
  /\ localStorage (snd twice) !! "darkMode" = Some (stringOfBool darkMode)
  /\ (forall stored, localStorage w !! "darkMode" = Some stored ->
        getInitialMode w = String.eqb stored "true")
  /\ (localStorage w !! "darkMode" = None -> getInitialMode w = prefersDark w).
Proof.
  intros Hls once twice. subst twice once.
  unfold toggleDarkMode, getInitialMode. rewrite Hls. cbn [fst snd].
  cbn [hasLocalStorage localStorage]. rewrite !lookup_insert_eq, negb_involutive.
  repeat split.
  - now destruct darkMode.
  - now destruct darkMode.
  - intros stored ->. reflexivity.
  - intros ->. now destruct (prefersDark w).
Qed.

Lemma theme_preference_persists_witness :
  getInitialMode (snd (toggleDarkMode false (mkWindow true ∅ false))) = true.
Proof.
  refine (proj1 (proj2 (theme_preference_persists false (mkWindow true ∅ false) _))).
  reflexivity.
Defined.

End ThemeFacts.

(** ** The application's handlers *)
Section AppFacts.
Import Annotations App.
Local Open Scope list_scope.

Lemma callLoadModel_fields fault f st :
  hook (callLoadModel fault f st)
  = fst (ModelFile.loadModel fault f (hook st) (browser st))
  /\ browser (callLoadModel fault f st)
     = snd (ModelFile.loadModel fault f (hook st) (browser st))
  /\ manager (callLoadModel fault f st) = manager st
  /\ annotations (callLoadModel fault f st) = annotations st
  /\ selectedAnnotationId (callLoadModel fault f st) = selectedAnnotationId st
  /\ alert (callLoadModel fault f st) = alert st.
Proof.
  unfold callLoadModel.
  destruct (ModelFile.loadModel fault f (hook st) (browser st)). now repeat split.
Qed.

Lemma loadModel_too_large fault f h br :
  (ModelFile.MAX_SIZE < ModelFile.size f)%N ->
  ModelFile.loadModel fault f h br
  = (ModelFile.setError (Some ModelFile.sizeLimitMessage) h, br).
Proof.
  intros H. unfold ModelFile.loadModel.
  destruct (N.ltb_spec ModelFile.MAX_SIZE (ModelFile.size f)); [reflexivity|lia].
Qed.

(** X25. The alert of [handleFileUpload] follows the file name alone and
    not what [loadModel] does. A file named .glb, .gltf or .obj always
    gets the success alert, also when it is over the size limit and the
    hook has set the size error and loaded nothing; a file whose format
    the hook takes from the MIME type gets the not-fully-supported warning
    although the hook loads it. *)
Theorem upload_alert_ignores_outcome (fault : ModelFile.Fault) (f : ModelFile.File)
    (st : AppState) :
  let after := handleFileUpload fault f st in
  (ModelFile.nameExtension f = Some "glb" \/ ModelFile.nameExtension f = Some "gltf"
   \/ ModelFile.nameExtension f = Some "obj" ->
     alert after = mkAlert true ("Loaded model: " +:+ ModelFile.name f) success
     /\ ((ModelFile.MAX_SIZE < ModelFile.size f)%N ->
         ModelFile.error (hook after) = Some ModelFile.sizeLimitMessage
         /\ ModelFile.modelUrl (hook after) = ModelFile.modelUrl (hook st)
         /\ browser after = browser st))
  /\ (ModelFile.usesMimeFallback f = true ->
      ModelFile.unsupported (ModelFile.detectExtension f) = false ->
      (ModelFile.size f <= ModelFile.MAX_SIZE)%N -> fault = ModelFile.NoFault ->
      alertSeverity (alert after) = warning
      /\ ModelFile.modelUrl (hook after)
         = Some (ModelFile.blobUrl (ModelFile.origin (browser st)) (ModelFile.issued (browser st)))
      /\ ModelFile.error (hook after) = None).
Proof.
  intros after. subst after. unfold handleFileUpload. split.
  - intros Hext.
    assert (Hb : bool_decide (ModelFile.nameExtension f = Some "glb")
                 || bool_decide (ModelFile.nameExtension f = Some "gltf")
                 || bool_decide (ModelFile.nameExtension f = Some "obj") = true).
    { destruct Hext as [H|[H|H]]; rewrite H; reflexivity. }
    rewrite Hb. split; [reflexivity|].
    intros Hbig. cbn [showAlert hook browser].
    destruct (callLoadModel_fields fault f st) as (-> & -> & _).
    now rewrite loadModel_too_large.
  - intros Hmime Hsup Hsz ->.
    assert (Hb : bool_decide (ModelFile.nameExtension f = Some "glb")
                 || bool_decide (ModelFile.nameExtension f = Some "gltf")
                 || bool_decide (ModelFile.nameExtension f = Some "obj") = false).
    { unfold ModelFile.usesMimeFallback in Hmime.
      apply andb_true_iff in Hmime as [Hfalsy _].
      destruct (ModelFile.nameExtension f) as [e|]; [|reflexivity].
      rewrite !orb_false_iff. repeat split; apply bool_decide_eq_false;
        intros [= ->]; discriminate Hfalsy. }
    rewrite Hb.
    destruct (callLoadModel_fields ModelFile.NoFault f
                (showAlert ("File format ." +:+ Js.show (ModelFile.nameExtension f) +:+
                  " is not fully supported yet. Only GLB/GLTF/OBJ files are currently supported.")
                  warning st)) as (-> & _ & _ & _ & _ & ->).
    cbn [showAlert hook browser alert alertSeverity].
    rewrite (loadModel_loaded f (hook st) (browser st) Hsz Hsup).
    now repeat split.
Qed.

Lemma upload_alert_ignores_outcome_witness :
  let st := initialApp (ModelFile.mkBrowser "https://m3d.example.org" 0 ∅ ∅) in
  let after := handleFileUpload ModelFile.NoFault
                 (ModelFile.mkFile "scan.glb" 209715200 "") st in
  alert after = mkAlert true "Loaded model: scan.glb" success
  /\ ModelFile.error (hook after) = Some "File size exceeds 100MB limit".
Proof.
  destruct (upload_alert_ignores_outcome ModelFile.NoFault
              (ModelFile.mkFile "scan.glb" 209715200 "")
              (initialApp (ModelFile.mkBrowser "https://m3d.example.org" 0 ∅ ∅))) as [H _].
  destruct H as (H1 & H2); [now left|].
  destruct H2 as (H2 & _); [vm_compute; reflexivity|].
  split; [exact H1|exact H2].
Defined.

Lemma selection_kept_by_removal i j l :
  j ∈ (id <$> l) -> j <> i -> j ∈ (id <$> removeAnnotation i l).
Proof.
  intros [a [-> Ha]]%list_elem_of_fmap Hne.
  apply list_elem_of_fmap_2, elem_of_removeAnnotation. now split.
Qed.

(** X26. In every state the app can reach, the [annotations] state cell
    equals the manager's collection, and a selected id is the id of an
    annotation on display: adding selects the new record, deleting the
    selected record clears the selection, and neither an edit nor a model
    load disturbs it. *)
Theorem selection_refers_to_annotation (br : ModelFile.Browser) (st : AppState) :
  reachable br st ->
  annotations st = manager st
  /\ (forall i, selectedAnnotationId st = Some i -> i ∈ (id <$> annotations st)).
Proof.
  induction 1 as [|st e _ [IHeq IHsel] Hoffered]; [split; [reflexivity|discriminate]|].
  destruct e as [fault file|fault model outcome|now draw r1 r2 r3|i data|i|i|]; simpl.
  - unfold handleFileUpload.
    destruct (_ || _); cbn [showAlert annotations manager selectedAnnotationId];
      destruct (callLoadModel_fields fault file st) as (_ & _ & Hm & Ha & Hs & _);
      try (destruct (callLoadModel_fields fault file
                       (showAlert ("File format ." +:+ Js.show (ModelFile.nameExtension file) +:+
                         " is not fully supported yet. Only GLB/GLTF/OBJ files are currently supported.")
                         warning st)) as (_ & _ & Hm' & Ha' & Hs' & _);
           rewrite ?Hm', ?Ha', ?Hs');
      rewrite ?Hm, ?Ha, ?Hs; now split.
  - unfold handleSampleModelSelect.
    destruct outcome as [message|statusText|blobSize];
      cbn [showAlert annotations manager selectedAnnotationId]; try (now split).
    destruct (callLoadModel_fields fault (sampleFile model blobSize) st)
      as (_ & _ & -> & -> & -> & _). now split.
  - unfold handleAddAnnotation.
    destruct (negb _); [now split|].
    unfold addAnnotation. cbn [showAlert annotations manager selectedAnnotationId id].
    split; [reflexivity|]. intros i [= <-].
    rewrite fmap_app. apply elem_of_app. right. now left.
  - unfold handleEditAnnotation. cbn [showAlert annotations manager selectedAnnotationId].
    split; [reflexivity|]. intros j Hj. rewrite ids_after_update, <- IHeq. now apply IHsel.
  - unfold handleDeleteAnnotation. cbn [showAlert annotations manager selectedAnnotationId].
    split; [reflexivity|]. intros j.
    destruct (bool_decide_reflect (selectedAnnotationId st = Some i)) as [E|E];
      [discriminate|].
    intros Hj. rewrite <- IHeq. apply selection_kept_by_removal; [now apply IHsel|].
    congruence.
  - split; [exact IHeq|]. intros j [= <-]. exact Hoffered.
  - now split.
Qed.

Lemma selection_refers_to_annotation_witness :
  let br := ModelFile.mkBrowser "https://m3d.example.org" 0 ∅ ∅ in
  let st := handle (DeleteAnnotation "annotation-5-7")
              (handle (AddAnnotation 5 7 F64.zero F64.zero F64.zero)
                 (handle (FileUpload ModelFile.NoFault (ModelFile.mkFile "a.glb" 10 ""))
                         (initialApp br))) in
  annotations st = manager st.
Proof.
  refine (proj1 (selection_refers_to_annotation
      (ModelFile.mkBrowser "https://m3d.example.org" 0 ∅ ∅) _ _)).
  repeat (apply reach_step; [|exact I]). apply reach_initial.
Defined.

(** X27. Editing or deleting under an id that no annotation carries
    changes no annotation, and the app still reports Annotation updated or
    Annotation deleted as a success. *)
Theorem edit_or_delete_unknown_id (i : string) (data : AnnotationPatch) (st : AppState) :
  (forall a, a ∈ manager st -> id a <> i) ->
  manager (handleEditAnnotation i data st) = manager st
  /\ alert (handleEditAnnotation i data st) = mkAlert true "Annotation updated" success
  /\ manager (handleDeleteAnnotation i st) = manager st
  /\ alert (handleDeleteAnnotation i st) = mkAlert true "Annotation deleted" success.
Proof.
  intros Habsent. unfold handleEditAnnotation, handleDeleteAnnotation.
  cbn [showAlert manager alert].
  rewrite updateAnnotation_absent
    by now apply get_none_iff, Forall_forall.
  rewrite removeAnnotation_absent by exact Habsent. now repeat split.
Qed.

Lemma edit_or_delete_unknown_id_witness :
  alert (handleDeleteAnnotation "annotation-0-0"
      (initialApp (ModelFile.mkBrowser "https://m3d.example.org" 0 ∅ ∅)))
  = mkAlert true "Annotation deleted" success.
Proof.
  refine (proj2 (proj2 (proj2 (edit_or_delete_unknown_id "annotation-0-0"
            (mkPatch None None None None)
                (initialApp (ModelFile.mkBrowser "https://m3d.example.org" 0 ∅ ∅)) _)))).
  intros a Ha. now apply elem_of_nil in Ha.
Defined.

(** X28. Selecting a sample whose name has no dot and whose format is, in
    any letter case, one of the five supported ones loads the fetched blob
    under the name name.format with the lower-cased format as its type,
    provided the blob is within the size limit. *)
Theorem sample_without_dot_loads (model : SampleModel) (blobSize : N) (st : AppState) :
  Js.includes "." (s_name model) = false ->
  Js.toLowerCase (s_format model) ∈ ModelFile.supportedFormats ->
  (blobSize <= ModelFile.MAX_SIZE)%N ->
  let after := handleSampleModelSelect ModelFile.NoFault model (Fetched blobSize) st in
  ModelFile.fileType (hook after) = Some (Js.toLowerCase (s_format model))
  /\ ModelFile.fileName (hook after) = Some (s_name model +:+ "." +:+ s_format model)
  /\ ModelFile.modelUrl (hook after)
     = Some (ModelFile.blobUrl (ModelFile.origin (browser st)) (ModelFile.issued (browser st)))
  /\ ModelFile.error (hook after) = None
  /\ alert after = mkAlert true ("Loaded sample model: " +:+ s_name model) success.
Proof.
  intros Hname Hformat Hsz after. subst after. unfold handleSampleModelSelect.
  cbn [showAlert hook alert].
  destruct (callLoadModel_fields ModelFile.NoFault (sampleFile model blobSize) st)
    as (-> & _).
  assert (Hfile : sampleFile model blobSize
                  = ModelFile.mkFile (s_name model +:+ String "." (s_format model))
                                     blobSize (mimeTypeOf (s_format model)))
    by (unfold sampleFile; now rewrite Hname).
  rewrite Hfile.
  assert (Hdet : ModelFile.detectExtension
                   (ModelFile.mkFile (s_name model +:+ String "." (s_format model))
                                     blobSize (mimeTypeOf (s_format model)))
                 = Some (Js.toLowerCase (s_format model))).
  { rewrite detectExtension_named; rewrite nameExtension_suffix by exact Hformat;
      [reflexivity|].
    apply supported_cases in Hformat.
    destruct Hformat as [->|[->|[->|[->| ->]]]]; reflexivity. }
  rewrite loadModel_loaded; [|exact Hsz|rewrite Hdet; now apply supported_accepted].
  cbn [fst ModelFile.fileType ModelFile.fileName ModelFile.modelUrl ModelFile.error
       ModelFile.name].
  now rewrite Hdet.
Qed.

Lemma sample_without_dot_loads_witness :
  let after := handleSampleModelSelect ModelFile.NoFault
                 (mkSample "Duck" "/models/duck.glb" "GLB") (Fetched 4096)
                 (initialApp (ModelFile.mkBrowser "https://m3d.example.org" 0 ∅ ∅)) in
  ModelFile.fileType (hook after) = Some "glb"
  /\ ModelFile.fileName (hook after) = Some "Duck.GLB".
Proof.
  destruct (sample_without_dot_loads (mkSample "Duck" "/models/duck.glb" "GLB") 4096
              (initialApp (ModelFile.mkBrowser "https://m3d.example.org" 0 ∅ ∅))) as (H1 & H2 & _).
  - reflexivity.
  - apply elem_of_cons. now left.
  - vm_compute. discriminate.
  - split; [exact H1|exact H2].
Defined.

Lemma includes_suffix_after c p rest :
  Js.includes c (p +:+ String c rest) = true.
Proof. rewrite includes_app. simpl. now rewrite Ascii.eqb_refl, orb_true_r. Qed.

Lemma loadModel_unsupported fault f h br :
  (ModelFile.size f <= ModelFile.MAX_SIZE)%N ->
  ModelFile.unsupported (ModelFile.detectExtension f) = true ->
  ModelFile.loadModel fault f h br
  = (ModelFile.setError
       (Some ("Unsupported file format: ." +:+ Js.show (ModelFile.detectExtension f))) h,
     br).
Proof.
  intros Hsz Hrej. unfold ModelFile.loadModel.
  destruct (N.ltb_spec ModelFile.MAX_SIZE (ModelFile.size f)) as [Hlt|_]; [lia|].
  now rewrite Hrej.
Qed.

Lemma truthy_toLowerCase s : s <> "" -> Js.truthy (Js.toLowerCase s) = true.
Proof. destruct s; [congruence|reflexivity]. Qed.

(** What the resolver makes of the file built for a sample whose name
    contains a dot. *)
Lemma detectExtension_dotted_sample p suf sz format :
  Js.includes "." suf = false ->
  ModelFile.detectExtension
    (ModelFile.mkFile (p +:+ String "." suf) sz (mimeTypeOf format))
  = if bool_decide (suf = "") then
      if bool_decide (Js.toLowerCase format ∈ ModelFile.supportedFormats)
      then Some (Js.toLowerCase format) else Some ""
    else Some (Js.toLowerCase suf).
Proof.
  intros Hsuf.
  assert (Hext : ModelFile.nameExtension
                   (ModelFile.mkFile (p +:+ String "." suf) sz (mimeTypeOf format))
                 = Some (Js.toLowerCase suf)).
  { unfold ModelFile.nameExtension. cbn [ModelFile.name].
    now rewrite pop_split_suffix. }
  case_bool_decide as Hempty.
  - subst suf. unfold ModelFile.detectExtension, ModelFile.usesMimeFallback.
    rewrite Hext. cbn [Js.truthy_opt Js.toLowerCase Js.truthy String.eqb negb andb
                        ModelFile.type].
    unfold mimeTypeOf. case_bool_decide as Hfmt.
    + apply supported_cases in Hfmt.
      destruct Hfmt as [->|[->|[->|[->| ->]]]]; reflexivity.
    + unfold ModelFile.supportedFormats in Hfmt.
      rewrite !not_elem_of_cons in Hfmt.
      destruct Hfmt as (H1 & H2 & H3 & H4 & H5 & _).
      rewrite (proj2 (String.eqb_neq _ _) H1), (proj2 (String.eqb_neq _ _) H2),
        (proj2 (String.eqb_neq _ _) H3), (proj2 (String.eqb_neq _ _) H4),
        (proj2 (String.eqb_neq _ _) H5).
      reflexivity.
  - rewrite detectExtension_named; rewrite Hext; [reflexivity|].
    now apply truthy_toLowerCase.
Qed.

(** X29. For a sample whose name contains a dot the file gets the sample's
    name as it is, and the success alert is shown whatever the hook does.
    When the text after the last dot of the name is not empty, it is the
    extension and the format field plays no part: a supported one is
    loaded under that type, any other is rejected as unsupported and the
    previous model stays. When the name ends with a dot, the extension is
    taken from the MIME type that was built from the format field: a
    supported format is loaded under that type, any other is rejected with
    an empty extension. *)
Theorem sample_with_dotted_name (fault : ModelFile.Fault)
    (model : SampleModel) (p suf : string) (blobSize : N) (st : AppState) :
  s_name model = p +:+ String "." suf ->
  Js.includes "." suf = false ->
  (blobSize <= ModelFile.MAX_SIZE)%N ->
  let after := handleSampleModelSelect fault model (Fetched blobSize) st in
  let rejected extension :=
    ModelFile.error (hook after) = Some ("Unsupported file format: ." +:+ extension)
    /\ ModelFile.modelUrl (hook after) = ModelFile.modelUrl (hook st)
    /\ ModelFile.fileType (hook after) = ModelFile.fileType (hook st)
    /\ browser after = browser st in
  let loaded extension :=
    ModelFile.fileType (hook after) = Some extension
    /\ ModelFile.fileName (hook after) = Some (s_name model)
    /\ ModelFile.modelUrl (hook after)
       = Some (ModelFile.blobUrl (ModelFile.origin (browser st))
                                 (ModelFile.issued (browser st)))
    /\ ModelFile.error (hook after) = None in
  alert after = mkAlert true ("Loaded sample model: " +:+ s_name model) success
  /\ (suf <> "" -> Js.toLowerCase suf ∉ ModelFile.supportedFormats ->
      rejected (Js.toLowerCase suf))
  /\ (suf <> "" -> Js.toLowerCase suf ∈ ModelFile.supportedFormats ->
      fault = ModelFile.NoFault -> loaded (Js.toLowerCase suf))
  /\ (suf = "" -> Js.toLowerCase (s_format model) ∈ ModelFile.supportedFormats ->
      fault = ModelFile.NoFault -> loaded (Js.toLowerCase (s_format model)))
  /\ (suf = "" -> Js.toLowerCase (s_format model) ∉ ModelFile.supportedFormats ->
      rejected "").
Proof.
  intros Hname Hsuf Hsz after rejected loaded. subst rejected loaded after.
  unfold handleSampleModelSelect. cbn [showAlert hook browser alert].
  destruct (callLoadModel_fields fault (sampleFile model blobSize) st) as (-> & -> & _).
  assert (Hfile : sampleFile model blobSize
                  = ModelFile.mkFile (p +:+ String "." suf) blobSize
                                     (mimeTypeOf (s_format model))).
  { unfold sampleFile. now rewrite Hname, includes_suffix_after. }
  rewrite Hfile.
  pose proof (detectExtension_dotted_sample p suf blobSize (s_format model) Hsuf)
    as Hdet.
  split; [reflexivity|].
  split; [|split; [|split]].
  - intros Hne Hunsup. rewrite bool_decide_eq_false_2 in Hdet by exact Hne.
    rewrite loadModel_unsupported; [|exact Hsz|]; rewrite Hdet.
    + now repeat split.
    + unfold ModelFile.unsupported. cbn [Js.truthy_opt default].
      rewrite truthy_toLowerCase by exact Hne.
      now rewrite (bool_decide_eq_false_2 _ Hunsup).
  - intros Hne Hsup ->. rewrite bool_decide_eq_false_2 in Hdet by exact Hne.
    rewrite loadModel_loaded; [|exact Hsz|rewrite Hdet; now apply supported_accepted].
    cbn [fst ModelFile.fileType ModelFile.fileName ModelFile.modelUrl ModelFile.error
         ModelFile.name].
    now rewrite Hdet, Hname.
  - intros Hempty Hsup ->. rewrite !bool_decide_eq_true_2 in Hdet by assumption.
    rewrite loadModel_loaded; [|exact Hsz|rewrite Hdet; now apply supported_accepted].
    cbn [fst ModelFile.fileType ModelFile.fileName ModelFile.modelUrl ModelFile.error
         ModelFile.name].
    now rewrite Hdet, Hname.
  - intros Hempty Hunsup. rewrite bool_decide_eq_true_2 in Hdet by exact Hempty.
    rewrite bool_decide_eq_false_2 in Hdet by exact Hunsup.
    rewrite loadModel_unsupported; [|exact Hsz|]; rewrite Hdet.
    + now repeat split.
    + reflexivity.
Qed.

Lemma sample_with_dotted_name_witness :
  ModelFile.error
    (hook (handleSampleModelSelect ModelFile.NoFault
             (mkSample "Duck v1.0" "/models/duck.glb" "glb") (Fetched 4096)
             (initialApp (ModelFile.mkBrowser "https://m3d.example.org" 0 ∅ ∅))))
  = Some "Unsupported file format: .0"
  /\ ModelFile.fileType
       (hook (handleSampleModelSelect ModelFile.NoFault
                (mkSample "model." "/models/duck.glb" "glb") (Fetched 4096)
                (initialApp (ModelFile.mkBrowser "https://m3d.example.org" 0 ∅ ∅))))
     = Some "glb"
  /\ ModelFile.error
       (hook (handleSampleModelSelect ModelFile.NoFault
                (mkSample "model." "/models/notes.txt" "txt") (Fetched 4096)
                (initialApp (ModelFile.mkBrowser "https://m3d.example.org" 0 ∅ ∅))))
     = Some "Unsupported file format: .".
Proof.
  split; [|split].
  - destruct (sample_with_dotted_name ModelFile.NoFault
                (mkSample "Duck v1.0" "/models/duck.glb" "glb") "Duck v1" "0" 4096
                (initialApp (ModelFile.mkBrowser "https://m3d.example.org" 0 ∅ ∅)))
      as (_ & H & _); [reflexivity|reflexivity|vm_compute; discriminate|].
    apply H; [discriminate|].
    unfold ModelFile.supportedFormats. rewrite !not_elem_of_cons.
    repeat split; try discriminate. apply not_elem_of_nil.
  - destruct (sample_with_dotted_name ModelFile.NoFault
                (mkSample "model." "/models/duck.glb" "glb") "model" "" 4096
                (initialApp (ModelFile.mkBrowser "https://m3d.example.org" 0 ∅ ∅)))
      as (_ & _ & _ & H & _); [reflexivity|reflexivity|vm_compute; discriminate|].
    apply H; [reflexivity| |reflexivity].
    apply elem_of_cons. now left.
  - destruct (sample_with_dotted_name ModelFile.NoFault
                (mkSample "model." "/models/notes.txt" "txt") "model" "" 4096
                (initialApp (ModelFile.mkBrowser "https://m3d.example.org" 0 ∅ ∅)))
      as (_ & _ & _ & _ & H); [reflexivity|reflexivity|vm_compute; discriminate|].
    apply H; [reflexivity|].
    unfold ModelFile.supportedFormats. rewrite !not_elem_of_cons.
    repeat split; try discriminate. apply not_elem_of_nil.
Defined.

End AppFacts.
